(** * Stock_Comparer: the ratio classifier and its aggregation arithmetic

    A shallow embedding of [stock_analyzer/analyzer.py],
    [stock_analyzer/criteria/*.py], [stock_analyzer/models/stock_data.py]
    and [stock_analyzer/models/report.py].

    - Python [float]s (and the numpy [float64]s read from price frames) are
      IEEE binary64 numbers: they are Rocq's primitive [float]s, whose
      operations and comparisons are the binary64 ones.  The small integer
      literals of the criteria tables ([0], [15], ...), the integer default
      of [dividendYield] and the integer rating counts are represented by
      the floats of the same value, which compare and divide exactly as the
      Python integers do (all of them are far below 2^53).
    - A [dict] with string keys is a [gmap string _]; a loop over
      [dict.items()] is a [map_fold].  The fold visits the entries in the
      map's own order rather than in insertion order; the closed forms
      proved below ([classify_loop_spec], [explanations_lookup]) show that
      the order does not matter to the results, which are compared as
      dictionaries.
    - [None] is [option]'s [None]; a ratio is a number or [None].
    - A raised exception is the [Raise] branch of [result].  The only
      exception in reach is the [ZeroDivisionError] of a division of
      integers; the other divisions have a non-zero literal or a divisor
      guarded by its truth value, and on numpy numbers do not raise.
    - The callers of [generate_report] also index dictionaries: their
      exceptions are the [Raises] branch of [outcome], a [KeyError] with its
      key or an exception of [classify_stock] passed on.  [all_reports],
      which is read in the order in which tickers were stored, is an
      association list.
    - What is printed or displayed is left out; the functions that format
      numbers and tables are parameters. *)

From Stdlib Require Import ZArith QArith Floats List Lia.
From Stdlib Require Import Ascii.
From stdpp Require Import base option list gmap sets strings.

Set Warnings "-inexact-float".
Open Scope string_scope.

(** ** Numbers *)

Module Num.

(** [min_val <= ratio_value < max_val] *)
Definition in_range (lo hi v : float) : bool :=
  PrimFloat.leb lo v && PrimFloat.ltb v hi.

(** Truth value of a number: everything but zero (NaN included). *)
Definition truthy (x : float) : bool := negb (PrimFloat.eqb x 0%float).

(** Truth value of [d.get(k)]: [None] and zero are false. *)
Definition truthy_opt (o : option float) : bool :=
  match o with Some x => truthy x | None => false end.

(** [float(n)] for a count [n]. *)
Definition of_nat (n : nat) : float :=
  PrimFloat.of_uint63 (Uint63.of_Z (Z.of_nat n)).

(** Python's [min(a, b)]: [b] replaces [a] only when [b < a]. *)
Definition py_min (a b : float) : float :=
  if PrimFloat.ltb b a then b else a.

End Num.

(** ** Exceptions *)

Inductive exn : Set := ZeroDivisionError.

Inductive result (A : Type) : Type :=
| Ok (a : A)
| Raise (e : exn).
Arguments Ok {A} a.
Arguments Raise {A} e.

Definition bind {A B} (r : result A) (k : A → result B) : result B :=
  match r with Ok a => k a | Raise e => Raise e end.

Notation "x ←! r ; k" := (bind r (λ x, k))
  (at level 20, r at level 100, k at level 200, only parsing, right associativity).
Notation "' p ←! r ; k" := (bind r (λ p, k))
  (at level 20, p pattern, r at level 100, k at level 200, only parsing,
   right associativity).

(** [a / b] on integers (true division). *)
Definition truediv (a b : nat) : result float :=
  match b with
  | O => Raise ZeroDivisionError
  | S _ => Ok (Num.of_nat a / Num.of_nat b)%float
  end.

(** ** Ratings and criteria tables *)

Inductive rating : Set := great | good | no_buy.

Global Instance rating_eq_dec : EqDecision rating.
Proof. solve_decision. Defined.

(** The inner dictionary of a criteria table, in insertion order:
    [{'great': (lo, hi), 'good': (lo, hi), 'no_buy': (lo, hi)}]. *)
Abbreviation ratio_criteria := (list (rating * (float * float))).

Definition inf : float := PrimFloat.infinity.
Definition ninf : float := PrimFloat.neg_infinity.

Definition VALUE_CRITERIA_items : list (string * ratio_criteria) :=
  [ ("pe_ratio",       [(great, (0, 15));    (good, (15, 25));    (no_buy, (25, inf))]);
    ("pb_ratio",       [(great, (0, 1.5));   (good, (1.5, 3));    (no_buy, (3, inf))]);
    ("ps_ratio",       [(great, (0, 2));     (good, (2, 4));      (no_buy, (4, inf))]);
    ("debt_to_equity", [(great, (0, 0.5));   (good, (0.5, 1.5));  (no_buy, (1.5, inf))]);
    ("roe",            [(great, (0.15, inf)); (good, (0.1, 0.15)); (no_buy, (0, 0.1))]);
    ("current_ratio",  [(great, (1.5, 3));   (good, (1, 1.5));    (no_buy, (0, 1))]);
    ("dividend_yield", [(great, (0.03, inf)); (good, (0.01, 0.03)); (no_buy, (0, 0.01))]);
    ("profit_margin",  [(great, (0.15, inf)); (good, (0.08, 0.15)); (no_buy, (0, 0.08))]);
    ("peg_ratio",      [(great, (0, 1));     (good, (1, 2));      (no_buy, (2, inf))])
  ]%float.

Definition GROWTH_MOMENTUM_CRITERIA_items : list (string * ratio_criteria) :=
  [ ("revenue_growth",         [(great, (0.2, inf));  (good, (0.1, 0.2));   (no_buy, (0, 0.1))]);
    ("earnings_growth",        [(great, (0.2, inf));  (good, (0.1, 0.2));   (no_buy, (0, 0.1))]);
    ("price_performance_6m",   [(great, (0.15, inf)); (good, (0.05, 0.15)); (no_buy, (ninf, 0.05))]);
    ("price_performance_1y",   [(great, (0.25, inf)); (good, (0.1, 0.25));  (no_buy, (ninf, 0.1))]);
    ("eps_growth",             [(great, (0.15, inf)); (good, (0.08, 0.15)); (no_buy, (0, 0.08))]);
    ("gross_margin",           [(great, (0.4, inf));  (good, (0.25, 0.4));  (no_buy, (0, 0.25))]);
    ("operating_margin",       [(great, (0.2, inf));  (good, (0.1, 0.2));   (no_buy, (0, 0.1))]);
    ("relative_strength",      [(great, (0.1, inf));  (good, (0, 0.1));     (no_buy, (ninf, 0))]);
    ("analyst_recommendation", [(great, (1, 2.5));    (good, (2.5, 3.5));   (no_buy, (3.5, 5))]);
    ("pe_growth",              [(great, (0.8, inf));  (good, (0.5, 0.8));   (no_buy, (0, 0.5))])
  ]%float.

Definition VALUE_CRITERIA : gmap string ratio_criteria :=
  list_to_map VALUE_CRITERIA_items.

Definition GROWTH_MOMENTUM_CRITERIA : gmap string ratio_criteria :=
  list_to_map GROWTH_MOMENTUM_CRITERIA_items.

(** ** The classifier: [StockAnalyzer.classify_stock] *)

(** [rating_counts = {'great': 0, 'good': 0, 'no_buy': 0}] *)
Record rating_counts : Set := Counts { n_great : nat; n_good : nat; n_no_buy : nat }.

Definition no_counts : rating_counts := Counts 0 0 0.

(** [rating_counts[rating] += 1] *)
Definition bump (r : rating) (c : rating_counts) : rating_counts :=
  match r with
  | great => Counts (S (n_great c)) (n_good c) (n_no_buy c)
  | good => Counts (n_great c) (S (n_good c)) (n_no_buy c)
  | no_buy => Counts (n_great c) (n_good c) (S (n_no_buy c))
  end.

Definition get_count (r : rating) (c : rating_counts) : nat :=
  match r with great => n_great c | good => n_good c | no_buy => n_no_buy c end.

(** [sum(rating_counts.values())] *)
Definition total (c : rating_counts) : nat := n_great c + n_good c + n_no_buy c.

(** The inner loop: the first rating, in the table's order, whose range
    holds the value; the [break] stops at it.
<<
    for rating, (min_val, max_val) in ratio_criteria.items():
        if min_val <= ratio_value < max_val:
            ...
            break
>> *)
Fixpoint rate_ratio (rc : ratio_criteria) (v : float) : option rating :=
  match rc with
  | [] => None
  | (r, (min_val, max_val)) :: rc' =>
      if Num.in_range min_val max_val v then Some r else rate_ratio rc' v
  end.

Abbreviation ratios_dict := (gmap string (option float)).
Abbreviation details_dict := (gmap string rating).

(** One turn of the outer loop over [ratios.items()]. *)
Definition classify_step (criteria : gmap string ratio_criteria)
    (ratio_name : string) (ratio_value : option float)
    (acc : rating_counts * details_dict) : rating_counts * details_dict :=
  match ratio_value, criteria !! ratio_name with
  | Some v, Some ratio_criteria =>
      match rate_ratio ratio_criteria v with
      | Some r => (bump r acc.1, <[ratio_name := r]> acc.2)
      | None => acc
      end
  | _, _ => acc
  end.

Definition classify_loop (criteria : gmap string ratio_criteria)
    (ratios : ratios_dict) : rating_counts * details_dict :=
  map_fold (classify_step criteria) (no_counts, ∅) ratios.

Definition INSUFFICIENT : string := "Insufficient data for classification".

(** [self.value_criteria if analysis_type == 'value' else
     self.growth_momentum_criteria] *)
Definition criteria_of (analysis_type : string) : gmap string ratio_criteria :=
  if decide (analysis_type = "value") then VALUE_CRITERIA
  else GROWTH_MOMENTUM_CRITERIA.

(** The three percentages; the divisions are the integer true divisions. *)
Definition percentages (c : rating_counts) : result (float * float * float) :=
  great_percent ←! truediv (n_great c) (total c);
  good_percent ←! truediv (n_good c) (total c);
  no_buy_percent ←! truediv (n_no_buy c) (total c);
  Ok (great_percent, good_percent, no_buy_percent).

(** The final classification from the percentages. *)
Definition final_classification (analysis_type : string)
    (p : float * float * float) : string :=
  let '(great_percent, good_percent, no_buy_percent) := p in
  if decide (analysis_type = "value") then
    if (0.5 <=? great_percent)%float && (no_buy_percent <=? 0.2)%float
    then "GREAT BUY"
    else if (0.6 <=? great_percent + good_percent)%float
            && (no_buy_percent <=? 0.3)%float
    then "GOOD BUY"
    else "NO BUY"
  else
    if (0.4 <=? great_percent)%float && (no_buy_percent <=? 0.3)%float
    then "GREAT GROWTH OPPORTUNITY"
    else if (0.5 <=? great_percent + good_percent)%float
            && (no_buy_percent <=? 0.4)%float
    then "GOOD GROWTH OPPORTUNITY"
    else "POOR GROWTH OPPORTUNITY".

(** Everything after the loop: the [total_rated == 0] return, then the
    percentages and the thresholds. *)
Definition aggregate (analysis_type : string) (c : rating_counts)
    (rating_details : details_dict) : result (string * details_dict) :=
  if Nat.eqb (total c) 0 then Ok (INSUFFICIENT, rating_details)
  else
    p ←! percentages c;
    Ok (final_classification analysis_type p, rating_details).

(** [if not ratios] returns for [None] and for the empty dictionary. *)
Definition classify_stock (ratios : option ratios_dict) (analysis_type : string)
    : result (string * details_dict) :=
  match ratios with
  | None => Ok (INSUFFICIENT, ∅)
  | Some ratios =>
      if bool_decide (ratios = ∅) then Ok (INSUFFICIENT, ∅)
      else
        let criteria := criteria_of analysis_type in
        let '(rating_counts, rating_details) := classify_loop criteria ratios in
        aggregate analysis_type rating_counts rating_details
  end.

(** ** Stock data: [models/stock_data.py] *)

(** The first column of a financial statement frame ([frame.iloc[:, 0]]),
    keyed by row label; the empty frame is the empty map. *)
Abbreviation statement := (gmap string float).

(** The provider's [info] dictionary is read at two kinds of fields: the
    numeric ones, each a number or [None] ([info]), and the textual ones
    such as [longName] and [currency] ([info_text]); it is empty when both
    parts are.  A price frame is its ['Close'] column, oldest row first.
    [current_price] is the field as [__post_init__] leaves it. *)
Record StockData : Type := {
  ticker : string;
  info : gmap string (option float);
  info_text : gmap string string;
  income_stmt : option statement;
  balance_sheet : option statement;
  cash_flow : option statement;
  historical_data : option (list float);
  market_data : option (list float);
  current_price : option float;
}.

(** [not stock_data.info] *)
Definition info_empty (sd : StockData) : bool :=
  bool_decide (info sd = ∅) && bool_decide (info_text sd = ∅).

(** [d.get(key, default)] *)
Definition dict_get {A} (d : gmap string A) (key : string) (dflt : A) : A :=
  default dflt (d !! key).

(** ** Ratios: [StockAnalyzer.calculate_ratios] *)

(** [(end_price - start_price) / start_price if start_price else None] *)
Definition price_change (start_price end_price : option float) : option float :=
  match start_price, end_price with
  | Some s, Some e =>
      if Num.truthy s then Some ((e - s) / s)%float else None
  | _, _ => None
  end.

(** The nine basic ratios, set for both analysis types. *)
Definition base_ratios (info : gmap string (option float)) : ratios_dict :=
  let ratios : ratios_dict := ∅ in
  let ratios := <["pe_ratio" := dict_get info "trailingPE" (dict_get info "forwardPE" None)]> ratios in
  let ratios := <["pb_ratio" := dict_get info "priceToBook" None]> ratios in
  let ratios := <["ps_ratio" := dict_get info "priceToSalesTrailing12Months" None]> ratios in
  let ratios :=
    <["debt_to_equity" :=
        if Num.truthy_opt (dict_get info "debtToEquity" None)
        then (λ x, x / 100)%float <$> dict_get info "debtToEquity" None
        else None]> ratios in
  let ratios := <["roe" := dict_get info "returnOnEquity" None]> ratios in
  let ratios := <["current_ratio" := dict_get info "currentRatio" None]> ratios in
  let ratios := <["dividend_yield" := dict_get info "dividendYield" (Some 0%float)]> ratios in
  let ratios := <["profit_margin" := dict_get info "profitMargins" None]> ratios in
  let ratios := <["peg_ratio" := dict_get info "pegRatio" None]> ratios in
  ratios.

(** The price metrics, computed when the price frame has rows. *)
Definition price_ratios (historical_data : list float)
    (market_data : option (list float)) (ratios : ratios_dict) : ratios_dict :=
  let n := length historical_data in
  let six_month_ago_idx := n - Nat.min n 126 in
  let ratios :=
    if Nat.ltb six_month_ago_idx n then
      <["price_performance_6m" :=
          price_change (historical_data !! six_month_ago_idx)
                       (last historical_data)]> ratios
    else ratios in
  let ratios :=
    <["price_performance_1y" :=
        price_change (head historical_data) (last historical_data)]> ratios in
  match market_data with
  | Some ((_ :: _) as market) =>
      let stock_return := dict_get ratios "price_performance_1y" None in
      let market_return := price_change (head market) (last market) in
      match stock_return, market_return with
      | Some s, Some m => <["relative_strength" := Some (s - m)%float]> ratios
      | _, _ => ratios
      end
  | _ => ratios
  end.

(** The growth metrics read from [info], and the P/E-to-growth score. *)
Definition growth_ratios (info : gmap string (option float))
    (ratios : ratios_dict) : ratios_dict :=
  let ratios := <["revenue_growth" := dict_get info "revenueGrowth" None]> ratios in
  let ratios := <["earnings_growth" := dict_get info "earningsGrowth" None]> ratios in
  let ratios := <["eps_growth" := dict_get info "earningsQuarterlyGrowth" None]> ratios in
  let ratios := <["gross_margin" := dict_get info "grossMargins" None]> ratios in
  let ratios := <["operating_margin" := dict_get info "operatingMargins" None]> ratios in
  let ratios := <["analyst_recommendation" := dict_get info "recommendationMean" None]> ratios in
  match dict_get ratios "pe_ratio" None, dict_get ratios "earnings_growth" None with
  | Some pe, Some eg =>
      if (0 <? eg)%float then
        let pe_growth_factor := if (0 <? pe)%float then (eg / pe)%float else 0%float in
        <["pe_growth" := Some (Num.py_min 1.5 (pe_growth_factor * 10))%float]> ratios
      else ratios
  | _, _ => ratios
  end.

(** The ratios recomputed from the statements when [info] lacks them. *)
Definition statement_ratios (income_stmt balance_sheet : option statement)
    (ratios : ratios_dict) : ratios_dict :=
  match income_stmt, balance_sheet with
  | Some income, Some balance =>
      if bool_decide (income = ∅) || bool_decide (balance = ∅) then ratios
      else
        match dict_get ratios "current_ratio" None,
              balance !! "TotalCurrentAssets",
              balance !! "TotalCurrentLiabilities" with
        | None, Some curr_assets, Some curr_liab =>
            <["current_ratio" :=
                if Num.truthy curr_liab then Some (curr_assets / curr_liab)%float
                else None]> ratios
        | _, _, _ => ratios
        end
  | _, _ => ratios
  end.

Definition calculate_ratios (stock_data : option StockData)
    (analysis_type : string) : option ratios_dict :=
  match stock_data with
  | None => None
  | Some sd =>
      if info_empty sd then None
      else
        let ratios := base_ratios (info sd) in
        let ratios :=
          match decide (analysis_type = "growth_momentum"), historical_data sd with
          | left _, Some hist =>
              let ratios :=
                match hist with
                | [] => ratios
                | _ :: _ => price_ratios hist (market_data sd) ratios
                end in
              growth_ratios (info sd) ratios
          | _, _ => ratios
          end in
        Some (statement_ratios (income_stmt sd) (balance_sheet sd) ratios)
  end.

(** ** Reports: [models/report.py] *)

Record StockReport : Type := {
  report_ticker : string;
  company_name : string;
  report_current_price : option float;
  currency : string;
  timestamp : string;
  classification : string;
  ratios : ratios_dict;
  rating_details : details_dict;
  ratio_explanations : gmap string string;
  analysis_type : string;
}.

(** [list(d.values()).count(r)] *)
Definition count_rating (r : rating) (d : details_dict) : nat :=
  length (filter (λ x, x = r) (map_to_list d).*2).

Definition great_count (rep : StockReport) : nat := count_rating great (rating_details rep).
Definition good_count (rep : StockReport) : nat := count_rating good (rating_details rep).
Definition no_buy_count (rep : StockReport) : nat := count_rating no_buy (rating_details rep).

(** [len(self.rating_details)] *)
Definition total_rated (rep : StockReport) : nat := size (rating_details rep).

Definition strength_percentage (rep : StockReport) : result float :=
  if Nat.eqb (total_rated rep) 0 then Ok 0%float
  else
    q ←! truediv (great_count rep + good_count rep) (total_rated rep);
    Ok (q * 100)%float.

(** ** The report assembler: [StockAnalyzer.generate_report] *)

Section Report.

(** The market-data retrieval, [None] when it fails. *)
Variable fetch_stock_data : string → option StockData.

(** The text rendered for one rated ratio:
    [get_ratio_explanation(ratio_name, ratio_value, rating, analysis_type)]. *)
Variable get_ratio_explanation : string → float → rating → string → string.

(** [datetime.now().strftime(...)] at the time of the call. *)
Variable now : string.

(** One turn of the loop over [rating_details.items()]. *)
Definition explain_step (ratios : ratios_dict) (analysis_type : string)
    (ratio_name : string) (r : rating)
    (ratio_explanations : gmap string string) : gmap string string :=
  match ratios !! ratio_name with
  | Some (Some v) =>
      <[ratio_name := get_ratio_explanation ratio_name v r analysis_type]>
        ratio_explanations
  | _ => ratio_explanations
  end.

Definition generate_report (ticker : string) (analysis_type : string)
    : result (string + StockReport) :=
  match fetch_stock_data ticker with
  | None => Ok (inl ("Could not retrieve data for " ++ ticker))
  | Some stock_data =>
      let ratios := calculate_ratios (Some stock_data) analysis_type in
      match ratios with
      | None => Ok (inl ("Could not calculate ratios for " ++ ticker))
      | Some ratios_d =>
          if bool_decide (ratios_d = ∅)
          then Ok (inl ("Could not calculate ratios for " ++ ticker))
          else
            '(classification, rating_details) ←! classify_stock ratios analysis_type;
            let ratio_explanations :=
              map_fold (explain_step ratios_d analysis_type) ∅ rating_details in
            Ok (inr {|
              report_ticker := ticker;
              company_name := dict_get (info_text stock_data) "longName" ticker;
              report_current_price := current_price stock_data;
              currency := dict_get (info_text stock_data) "currency" "USD";
              timestamp := now;
              classification := classification;
              ratios := ratios_d;
              rating_details := rating_details;
              ratio_explanations := ratio_explanations;
              analysis_type := analysis_type;
            |})
      end
  end.

End Report.

(** ** Vocabulary of the properties *)

(** The rating one entry of the ratios dictionary ends with in
    [rating_details], if any: its value is not [None], its name is in the
    criteria table, and some range of its criteria holds the value. *)
Definition rating_of (criteria : gmap string ratio_criteria)
    (ratio_name : string) (ratio_value : option float) : option rating :=
  v ← ratio_value; rc ← criteria !! ratio_name; rate_ratio rc v.

Definition details_of (criteria : gmap string ratio_criteria)
    (ratios : ratios_dict) : details_dict :=
  map_imap (rating_of criteria) ratios.

(** The three counts read off a [rating_details] dictionary. *)
Definition counts_of (d : details_dict) : rating_counts :=
  Counts (count_rating great d) (count_rating good d) (count_rating no_buy d).

(** [{k: v for k, v in ratios.items() if k in criteria}] *)
Definition restrict_to (criteria : gmap string ratio_criteria)
    (ratios : ratios_dict) : ratios_dict :=
  filter (λ kv, is_Some (criteria !! kv.1)) ratios.

(** The range a criteria dictionary gives a rating: [ratio_criteria[r]]. *)
Definition range_of (rc : ratio_criteria) (r : rating) : option (float * float) :=
  snd <$> find (λ e, bool_decide (e.1 = r)) rc.

(** [v] lies in the range of [r]. *)
Definition matches (rc : ratio_criteria) (r : rating) (v : float) : bool :=
  match range_of rc r with
  | Some (lo, hi) => Num.in_range lo hi v
  | None => false
  end.

(** Two ranges that cannot hold a common number: one ends where, or
    before, the other starts. *)
Definition separated (a b : float * float) : bool :=
  PrimFloat.leb a.2 b.1 || PrimFloat.leb b.2 a.1.

(** A criteria dictionary with the three ratings as its keys, once each,
    and pairwise separated ranges. *)
Definition well_separated (rc : ratio_criteria) : bool :=
  match range_of rc great, range_of rc good, range_of rc no_buy with
  | Some g, Some d, Some n =>
      bool_decide (length rc = 3) &&
      separated g d && separated g n && separated d n
  | _, _, _ => false
  end.

(** The labels of the two analyses. *)
Definition VALUE_LABELS : list string := ["GREAT BUY"; "GOOD BUY"; "NO BUY"].
Definition GROWTH_LABELS : list string :=
  ["GREAT GROWTH OPPORTUNITY"; "GOOD GROWTH OPPORTUNITY"; "POOR GROWTH OPPORTUNITY"].

(** The label as a function of the three counts alone. *)
Definition label_of (analysis_type : string) (c : rating_counts) : string :=
  if Nat.eqb (total c) 0 then INSUFFICIENT
  else
    final_classification analysis_type
      ((Num.of_nat (n_great c) / Num.of_nat (total c))%float,
       (Num.of_nat (n_good c) / Num.of_nat (total c))%float,
       (Num.of_nat (n_no_buy c) / Num.of_nat (total c))%float).

(** The claim that every ratio with a value and a criteria entry is rated. *)
Definition every_criteria_ratio_rated (ratios : ratios_dict) (t : string) : Prop :=
  ∀ name v rc,
    ratios !! name = Some (Some v) → criteria_of t !! name = Some rc →
    ∃ label details r,
      classify_stock (Some ratios) t = Ok (label, details) ∧
      details !! name = Some r ∧ matches rc r v = true.



(** A stock for which the provider supplies every field that is read. *)
Definition full_stock : StockData := {|
  ticker := "ACME";
  info := list_to_map
    [ ("trailingPE", Some 20); ("priceToBook", Some 2);
      ("priceToSalesTrailing12Months", Some 3); ("debtToEquity", Some 80);
      ("returnOnEquity", Some 0.2); ("currentRatio", Some 2);
      ("dividendYield", Some 0.02); ("profitMargins", Some 0.1);
      ("pegRatio", Some 1.5); ("revenueGrowth", Some 0.3);
      ("earningsGrowth", Some 0.3); ("earningsQuarterlyGrowth", Some 0.1);
      ("grossMargins", Some 0.5); ("operatingMargins", Some 0.2);
      ("recommendationMean", Some 2) ]%float;
  info_text := {[ "longName" := "Acme Corporation" ]};
  income_stmt := None; balance_sheet := None; cash_flow := None;
  historical_data := Some [100; 120]%float;
  market_data := Some [100; 110]%float;
  current_price := Some 120%float;
|}.

(** A stock of which the provider knows the name only. *)
Definition bare_stock : StockData := {|
  ticker := "BARE";
  info := ∅;
  info_text := {[ "longName" := "Bare Holdings" ]};
  income_stmt := None; balance_sheet := None; cash_flow := None;
  historical_data := None; market_data := None;
  current_price := None;
|}.

(** A debt-free stock: the provider reports a debt-to-equity of zero. *)
Definition debt_free_stock : StockData := {|
  ticker := "NODEBT";
  info := {[ "debtToEquity" := Some 0%float; "currentRatio" := Some 2%float ]};
  info_text := ∅;
  income_stmt := None; balance_sheet := None; cash_flow := None;
  historical_data := None; market_data := None;
  current_price := None;
|}.

(** A stock whose provider sends a [dividendYield] of [None]. *)
Definition none_dividend_stock : StockData := {|
  ticker := "NODIV";
  info := {[ "dividendYield" := None; "currentRatio" := Some 2%float ]};
  info_text := ∅;
  income_stmt := None; balance_sheet := None; cash_flow := None;
  historical_data := None; market_data := None;
  current_price := None;
|}.

(** The provider supplies no dividend yield: [info] has no [dividendYield],
    or holds [None] there. *)
Definition no_dividend_yield (sd : StockData) : Prop :=
  mjoin (info sd !! "dividendYield") = None.

(** The claim that a stock without a dividend yield gets a [dividend_yield]
    of 0, which the value analysis rates [no_buy]. *)
Definition missing_dividend_rated (sd : StockData) : Prop :=
  no_dividend_yield sd →
  ∃ r label details,
    calculate_ratios (Some sd) "value" = Some r ∧
    r !! "dividend_yield" = Some (Some 0%float) ∧
    classify_stock (Some r) "value" = Ok (label, details) ∧
    details !! "dividend_yield" = Some no_buy.

(** The exact value of a finite binary64 number, as a rational. *)
Definition exact (x : float) : option Q :=
  match Prim2SF x with
  | S754_zero _ => Some 0%Q
  | S754_finite s m e =>
      Some ((if s then -1 else 1) * inject_Z (Zpos m) * Qpower 2 e)%Q
  | _ => None
  end.

(** The claim that the three percentages sum to 1: as Python adds and
    compares them, and as the rationals they are. *)
Definition percentages_sum_to_one (c : rating_counts) : Prop :=
  ∃ gp dp np, percentages c = Ok (gp, dp, np) ∧
              PrimFloat.eqb (gp + dp + np) 1 = true.

Definition percentages_sum_to_one_exactly (c : rating_counts) : Prop :=
  ∃ gp dp np x y z,
    percentages c = Ok (gp, dp, np) ∧
    exact gp = Some x ∧ exact dp = Some y ∧ exact np = Some z ∧
    Qeq_bool (x + y + z) 1 = true.

(** The sum of the three percentages is 1 or the number just below 1. *)
Definition sum_near_one (c : rating_counts) : bool :=
  match percentages c with
  | Ok (gp, dp, np) =>
      let s := (gp + dp + np)%float in
      PrimFloat.eqb s 1 || PrimFloat.eqb s (PrimFloat.next_down 1)
  | Raise _ => false
  end.

(** All triples of counts with fields up to [n]. *)
Definition counts_upto (n : nat) : list rating_counts :=
  g ← seq 0 (S n); d ← seq 0 (S n); k ← seq 0 (S n); [Counts g d k].

(** Six value ratios: one [great], four [good], one [no_buy]. *)
Definition six_ratios : ratios_dict :=
  {[ "pe_ratio" := Some 10%float; "pb_ratio" := Some 2%float;
     "ps_ratio" := Some 3%float; "debt_to_equity" := Some 1%float;
     "roe" := Some 0.12%float; "current_ratio" := Some 0.5%float ]}.

(** * The callers, the explanations and the summaries *)

(** ** Reports: the summary, [StockReport.summary] *)

(** [sub in s] *)
Fixpoint contains (sub s : string) : bool :=
  String.prefix sub s
  || match s with
     | EmptyString => false
     | String _ s' => contains sub s'
     end.

Definition summary (rep : StockReport) : string :=
  if contains "GREAT" (classification rep) then
    if decide (analysis_type rep = "value")
    then "This stock shows strong fundamentals across multiple metrics and may be undervalued."
    else "This stock shows strong growth and momentum across multiple metrics and may be poised for continued outperformance."
  else if contains "GOOD" (classification rep) then
    if decide (analysis_type rep = "value")
    then "This stock shows decent fundamentals with some strengths, suggesting a reasonable investment."
    else "This stock shows decent growth and momentum characteristics, suggesting potential for continued performance."
  else
    if decide (analysis_type rep = "value")
    then "This stock has several concerning indicators and may not be a good value investment at current prices."
    else "This stock lacks sufficient growth and momentum characteristics to be considered a strong growth investment.".

(** The strength that [strength_percentage] computes from counts. *)
Definition strength_of (c : rating_counts) : float :=
  if Nat.eqb (total c) 0 then 0%float
  else (Num.of_nat (n_great c + n_good c) / Num.of_nat (total c) * 100)%float.

(** ** Exceptions of the callers *)

(** Besides the exceptions of [classify_stock], which go through uncaught,
    the callers index dictionaries. *)
Inductive error : Type :=
| KeyError (key : string)
| Uncaught (e : exn).

Inductive outcome (A : Type) : Type :=
| Returns (a : A)
| Raises (e : error).
Arguments Returns {A} a.
Arguments Raises {A} e.

Definition and_then {A B} (r : outcome A) (k : A → outcome B) : outcome B :=
  match r with Returns a => k a | Raises e => Raises e end.

Notation "x ←? r ; k" := (and_then r (λ x, k))
  (at level 20, r at level 100, k at level 200, only parsing, right associativity).
Notation "' p ←? r ; k" := (and_then r (λ p, k))
  (at level 20, p pattern, r at level 100, k at level 200, only parsing,
   right associativity).

(** [d[key]] *)
Definition dict_item {A} (d : gmap string A) (key : string) : outcome A :=
  match d !! key with
  | Some a => Returns a
  | None => Raises (KeyError key)
  end.

(** A loop whose body may raise. *)
Fixpoint for_each {A S} (body : A → S → outcome S) (l : list A) (s : S)
    : outcome S :=
  match l with
  | [] => Returns s
  | a :: l' => s' ←? body a s; for_each body l' s'
  end.

(** A list built by a loop whose body may raise. *)
Fixpoint collect {A B} (f : A → outcome B) (l : list A) : outcome (list B) :=
  match l with
  | [] => Returns []
  | a :: l' => b ←? f a; bs ←? collect f l'; Returns (b :: bs)
  end.

(** ** Dictionaries whose order of insertion shows *)

(** [all_reports] is read in the order in which tickers were first stored:
    an association list, with [d[k] = v] replacing in place or adding at
    the end. *)
Abbreviation odict V := (list (string * V)).

Fixpoint odict_set {V} (k : string) (v : V) (d : odict V) : odict V :=
  match d with
  | [] => [(k, v)]
  | (k', v') :: d' =>
      if decide (k' = k) then (k, v) :: d' else (k', v') :: odict_set k v d'
  end.

(** [d.get(k)] *)
Fixpoint odict_get {V} (k : string) (d : odict V) : option V :=
  match d with
  | [] => None
  | (k', v') :: d' => if decide (k' = k) then Some v' else odict_get k d'
  end.

(** ** Ratio descriptions: [VALUE_DESCRIPTIONS], [GROWTH_MOMENTUM_DESCRIPTIONS] *)

(** One description; [ri_ideal] is the entry under ['value_stock_ideal'] in
    the value table and under ['growth_stock_ideal'] in the growth table. *)
Record ratio_info : Type := {
  ri_name : string;
  ri_description : string;
  ri_interpretation : string;
  ri_ideal : string;
}.

Definition VALUE_DESCRIPTIONS_items : list (string * ratio_info) :=
  [
    ("pe_ratio",
     {| ri_name := "Price-to-Earnings Ratio";
        ri_description := "Compares a company's share price to its earnings per share.";
        ri_interpretation := "Lower is better for value stocks. A low P/E may indicate an undervalued stock, while a high P/E might suggest overvaluation or high growth expectations.";
        ri_ideal := "Below 15 is excellent for value investing, suggesting potential undervaluation." |});
    ("pb_ratio",
     {| ri_name := "Price-to-Book Ratio";
        ri_description := "Compares a company's market value to its book value.";
        ri_interpretation := "Lower is better for value stocks. A P/B ratio under 1.5 may indicate an undervalued stock relative to its assets.";
        ri_ideal := "Below 1.5 is considered excellent for value investing." |});
    ("ps_ratio",
     {| ri_name := "Price-to-Sales Ratio";
        ri_description := "Compares a company's market cap to its revenue.";
        ri_interpretation := "Lower is better. A low P/S ratio may indicate an undervalued stock based on its sales performance.";
        ri_ideal := "Below 2 is excellent for value investing, particularly in established industries." |});
    ("debt_to_equity",
     {| ri_name := "Debt-to-Equity Ratio";
        ri_description := "Measures a company's financial leverage by comparing total liabilities to shareholders' equity.";
        ri_interpretation := "Lower is generally better. High leverage can increase financial risk and volatility.";
        ri_ideal := "Below 0.5 is excellent, indicating conservative financial management." |});
    ("roe",
     {| ri_name := "Return on Equity";
        ri_description := "Measures how efficiently a company generates profit from its equity.";
        ri_interpretation := "Higher is better. Strong ROE indicates efficient use of shareholders' capital.";
        ri_ideal := "Above 15% shows excellent profitability and efficiency." |});
    ("current_ratio",
     {| ri_name := "Current Ratio";
        ri_description := "Measures a company's ability to pay short-term obligations.";
        ri_interpretation := "Higher is generally better. A ratio above 1.5 suggests good short-term financial health.";
        ri_ideal := "Between 1.5 and 3.0 is ideal, showing good liquidity without excessive idle capital." |});
    ("dividend_yield",
     {| ri_name := "Dividend Yield";
        ri_description := "Annual dividend payment relative to share price.";
        ri_interpretation := "Higher is generally better for income investors. Shows how much cash flow you're receiving per dollar invested.";
        ri_ideal := "Above 3% is excellent for value and income investing." |});
    ("profit_margin",
     {| ri_name := "Profit Margin";
        ri_description := "Percentage of revenue that translates into profit.";
        ri_interpretation := "Higher is better. Shows how efficiently a company converts sales into profits.";
        ri_ideal := "Above 15% indicates strong profitability and competitive advantages." |});
    ("peg_ratio",
     {| ri_name := "Price/Earnings to Growth Ratio";
        ri_description := "P/E ratio divided by earnings growth rate.";
        ri_interpretation := "Lower is better. Takes into account growth expectations to give context to the P/E ratio.";
        ri_ideal := "Below 1.0 suggests the stock may be undervalued relative to its growth rate." |})
  ].

Definition GROWTH_MOMENTUM_DESCRIPTIONS_items : list (string * ratio_info) :=
  [
    ("revenue_growth",
     {| ri_name := "Revenue Growth Rate";
        ri_description := "Year-over-year percentage increase in company revenue.";
        ri_interpretation := "Higher is better for growth stocks. Strong revenue growth indicates expanding business and market share.";
        ri_ideal := "Above 20% annually is excellent, showing rapid expansion." |});
    ("earnings_growth",
     {| ri_name := "Earnings Growth Rate";
        ri_description := "Year-over-year percentage increase in earnings.";
        ri_interpretation := "Higher is better. Accelerating earnings growth is particularly positive.";
        ri_ideal := "Above 20% annually shows strong profit expansion." |});
    ("price_performance_6m",
     {| ri_name := "6-Month Price Performance";
        ri_description := "Percentage change in stock price over the last 6 months.";
        ri_interpretation := "Higher is better for momentum stocks. Positive price momentum often continues in the short term.";
        ri_ideal := "Above 15% in 6 months indicates strong upward momentum." |});
    ("price_performance_1y",
     {| ri_name := "1-Year Price Performance";
        ri_description := "Percentage change in stock price over the last year.";
        ri_interpretation := "Higher is better for momentum strategies. Extended price strength often signals market confidence.";
        ri_ideal := "Above 25% annually shows sustained price strength." |});
    ("eps_growth",
     {| ri_name := "EPS Growth Rate";
        ri_description := "Year-over-year percentage increase in earnings per share.";
        ri_interpretation := "Higher is better. Consistent EPS growth is a key factor for growth investors.";
        ri_ideal := "Above 15% annually indicates strong per-share profit growth." |});
    ("gross_margin",
     {| ri_name := "Gross Margin";
        ri_description := "Gross profit divided by revenue.";
        ri_interpretation := "Higher is better. High margins often indicate competitive advantages and pricing power.";
        ri_ideal := "Above 40% suggests strong product margins and pricing power." |});
    ("operating_margin",
     {| ri_name := "Operating Margin";
        ri_description := "Operating income divided by revenue.";
        ri_interpretation := "Higher is better. Improving operating margins suggest operational efficiency.";
        ri_ideal := "Above 20% indicates efficient operations and scalable business model." |});
    ("relative_strength",
     {| ri_name := "Relative Strength";
        ri_description := "Stock's performance compared to a benchmark (like S&P 500).";
        ri_interpretation := "Higher is better for momentum stocks. Outperformance vs. the market is a positive signal.";
        ri_ideal := "Outperforming the market by 10% or more is excellent." |});
    ("analyst_recommendation",
     {| ri_name := "Analyst Recommendation";
        ri_description := "Average rating from analysts (1=Strong Buy, 5=Strong Sell).";
        ri_interpretation := "Lower is better. Strong buy ratings may indicate positive future prospects.";
        ri_ideal := "Below 2.5 (between Buy and Strong Buy) suggests analyst confidence." |});
    ("pe_growth",
     {| ri_name := "P/E to Growth Score";
        ri_description := "Custom score balancing P/E with growth (higher growth justifying higher P/E).";
        ri_interpretation := "Higher is better for growth stocks. This metric rewards high growth even with elevated P/E ratios.";
        ri_ideal := "Above 0.8 suggests good balance of growth and valuation." |})
  ].

Definition VALUE_DESCRIPTIONS : gmap string ratio_info :=
  list_to_map VALUE_DESCRIPTIONS_items.

Definition GROWTH_MOMENTUM_DESCRIPTIONS : gmap string ratio_info :=
  list_to_map GROWTH_MOMENTUM_DESCRIPTIONS_items.

(** ** Explanations: [StockAnalyzer.get_ratio_explanation] *)

(** [s.replace(a, b)] for single characters. *)
Fixpoint replace_char (a b : Ascii.ascii) (s : string) : string :=
  match s with
  | EmptyString => EmptyString
  | String c s' =>
      String (if Ascii.eqb c a then b else c) (replace_char a b s')
  end.

(** [s.split('.')[0]] *)
Fixpoint before_dot (s : string) : string :=
  match s with
  | EmptyString => EmptyString
  | String c s' => if Ascii.eqb c "."%char then EmptyString else String c (before_dot s')
  end.

Section Explanations.

(** [f"{x:.2f}"] *)
Variable format_2f : float → string.

(** [f"{x}"] for a bound of a criteria table, as the table writes it. *)
Variable str_bound : float → string.

(** [criteria['great'][0]] and [criteria['great'][1]] *)
Definition great_range (criteria : ratio_criteria) : outcome (float * float) :=
  match range_of criteria great with
  | Some range => Returns range
  | None => Raises (KeyError "great")
  end.

(** The text of the ideal range, [lo:.2f] then the upper bound or [inf]. *)
Definition ideal_range_text (range : float * float) : string :=
  format_2f range.1 ++ "-"
  ++ (if negb (PrimFloat.eqb range.2 inf) then str_bound range.2 else "inf").

Definition get_ratio_explanation (ratio_name : string)
    (ratio_value : option float) (r : rating) (analysis_type : string)
    : outcome string :=
  let descriptions :=
    if decide (analysis_type = "value") then VALUE_DESCRIPTIONS
    else GROWTH_MOMENTUM_DESCRIPTIONS in
  match descriptions !! ratio_name, ratio_value with
  | Some ratio_info, Some v =>
      let continue (criteria : ratio_criteria) : outcome string :=
        let explanation := ri_name ratio_info ++ " (" ++ format_2f v ++ "): " in
        let style := replace_char "_"%char "/"%char analysis_type in
        let first_sentence := before_dot (ri_interpretation ratio_info) in
        match r with
        | great =>
            Returns (explanation
                     ++ "EXCELLENT. " ++ first_sentence ++ ". "
                     ++ "For " ++ style ++ " stocks, " ++ ri_ideal ratio_info)
        | good =>
            range ←? great_range criteria;
            Returns (explanation
                     ++ "GOOD. " ++ first_sentence ++ ". "
                     ++ "While not in the ideal range ("
                     ++ ideal_range_text range ++ "), "
                     ++ "it's still acceptable for " ++ style ++ " investing.")
        | no_buy =>
            range ←? great_range criteria;
            Returns (explanation
                     ++ "CONCERNING. " ++ first_sentence ++ ". "
                     ++ "For " ++ style
                     ++ " stocks, this is outside the preferred range. "
                     ++ "Ideal would be " ++ ideal_range_text range ++ ".")
        end in
      if decide (analysis_type = "value") then
        criteria ←? dict_item VALUE_CRITERIA ratio_name;
        continue criteria
      else
        match GROWTH_MOMENTUM_CRITERIA !! ratio_name with
        | Some criteria => continue criteria
        | None =>
            Returns "This metric is not applicable for growth/momentum analysis."
        end
  | _, _ => Returns "Insufficient data available."
  end.

End Explanations.

(** ** Several stocks: [StockAnalyzer.analyze_multiple_stocks] *)

Abbreviation report_or_error := (string + StockReport)%type.

(** The categories a run starts with, each with no ticker. *)
Definition result_categories (analysis_type : string) : gmap string (list string) :=
  if decide (analysis_type = "value") then
    {[ "GREAT BUY" := []; "GOOD BUY" := []; "NO BUY" := []; "ERROR" := [] ]}
  else
    {[ "GREAT GROWTH OPPORTUNITY" := []; "GOOD GROWTH OPPORTUNITY" := [];
       "POOR GROWTH OPPORTUNITY" := []; "ERROR" := [] ]}.

(** A cell of the printed summary: a text, or the price as the report
    holds it. *)
Inductive cell : Type :=
| Text (s : string)
| Price (p : option float).

Section Callers.

Variable fetch_stock_data : string → option StockData.
Variable explain : string → float → rating → string → string.
Variable now : string.

(** [f"{n}"] for a count and [f"{x:.1f}"]. *)
Variable str_int : nat → string.
Variable format_1f : float → string.

(** [f"{x:.2f}"], [tabulate(rows, headers=..., tablefmt="pipe")] and
    [s.title()]. *)
Variable format_2f : float → string.
Variable tabulate : list (list string) → list string → string.
Variable title : string → string.

(** [results[category].append(ticker)] *)
Definition append_ticker (category ticker : string)
    (results : gmap string (list string)) : outcome (gmap string (list string)) :=
  tickers ←? dict_item results category;
  Returns (<[category := (tickers ++ [ticker])%list]> results).

(** One turn of the loop over the tickers. *)
Definition process_ticker (analysis_type : string) (ticker : string)
    (acc : gmap string (list string) * odict report_or_error)
    : outcome (gmap string (list string) * odict report_or_error) :=
  let '(results, all_reports) := acc in
  match generate_report fetch_stock_data explain now ticker analysis_type with
  | Raise e => Raises (Uncaught e)
  | Ok (inl message) =>
      results ←? append_ticker "ERROR" ticker results;
      Returns (results, odict_set ticker (inl message) all_reports)
  | Ok (inr report) =>
      results ←? append_ticker (classification report) ticker results;
      Returns (results, odict_set ticker (inr report) all_reports)
  end.

(** One row of the summary table. *)
Definition summary_row (entry : string * report_or_error) : outcome (list cell) :=
  let '(ticker, report) := entry in
  match report with
  | inl message => Returns [Text ticker; Text "ERROR"; Text message; Text "-"]
  | inr report =>
      let great_count := count_rating great (rating_details report) in
      let good_count := count_rating good (rating_details report) in
      let total := size (rating_details report) in
      match truediv (great_count + good_count) total with
      | Raise e => Raises (Uncaught e)
      | Ok share =>
          let strength :=
            str_int (great_count + good_count) ++ "/" ++ str_int total
            ++ " (" ++ format_1f (share * 100)%float ++ "%)" in
          Returns [Text ticker; Text (classification report);
                   Price (report_current_price report); Text strength]
      end
  end.

(** The loop over the tickers, then the rows of the summary table, which
    are printed. *)
Definition analyze_multiple_stocks (tickers : list string)
    (analysis_type : string)
    : outcome (gmap string (list string) * odict report_or_error) :=
  '(results, all_reports) ←?
    for_each (process_ticker analysis_type) tickers
      (result_categories analysis_type, []);
  summary_data ←? collect summary_row all_reports;
  Returns (results, all_reports).

(** ** Side by side: [StockAnalyzer.generate_detailed_comparison] *)

(** The reports that are compared: no error, and of the analysis type. *)
Definition valid_reports (all_reports : odict report_or_error)
    (analysis_type : string) : odict StockReport :=
  omap (λ entry : string * report_or_error,
          match entry.2 with
          | inr ({| analysis_type := report_type |} as report) =>
              if decide (report_type = analysis_type)
              then Some (entry.1, report) else None
          | inl _ => None
          end) all_reports.

(** One cell of a metric's row. *)
Definition comparison_cell (metric : string) (report : StockReport) : string :=
  match mjoin (ratios report !! metric) with
  | Some value =>
      match rating_details report !! metric with
      | Some great => "**" ++ format_2f value ++ "** (Great)"
      | Some good => "*" ++ format_2f value ++ "* (Good)"
      | _ => format_2f value ++ " (Poor)"
      end
  | None => "N/A"
  end.

(** The name a metric is listed under. *)
Definition metric_name (analysis_type metric : string) : string :=
  let descriptions :=
    if decide (analysis_type = "value") then VALUE_DESCRIPTIONS
    else GROWTH_MOMENTUM_DESCRIPTIONS in
  match descriptions !! metric with
  | Some ratio_info => ri_name ratio_info
  | None => title (replace_char "_"%char " "%char metric)
  end.

Definition comparison_header (valid : odict StockReport) : list string :=
  "Metric"
  :: map (λ entry : string * StockReport,
            company_name entry.2 ++ " (" ++ entry.1 ++ ")") valid.

Definition comparison_data (valid : odict StockReport)
    (analysis_type : string) : list (list string) :=
  let metrics :=
    if decide (analysis_type = "value") then VALUE_CRITERIA_items.*1
    else GROWTH_MOMENTUM_CRITERIA_items.*1 in
  let metric_rows :=
    map (λ metric,
           metric_name analysis_type metric
           :: map (λ entry : string * StockReport,
                     comparison_cell metric entry.2) valid) metrics in
  let classification_row :=
    "**Classification**"
    :: map (λ entry : string * StockReport,
              "**" ++ classification entry.2 ++ "**") valid in
  (metric_rows ++ [classification_row])%list.

Definition generate_detailed_comparison (all_reports : odict report_or_error)
    (analysis_type : string) : string :=
  let valid := valid_reports all_reports analysis_type in
  match valid with
  | [] => "No valid reports for " ++ analysis_type ++ " analysis to compare."
  | _ :: _ =>
      tabulate (comparison_data valid analysis_type) (comparison_header valid)
  end.

(** ** Both perspectives: [dual_analysis] *)

(** The four parts of the dictionary that [dual_analysis] returns. *)
Record dual_report : Type := {
  value_results : gmap string (list string);
  value_reports : odict report_or_error;
  growth_results : gmap string (list string);
  growth_reports : odict report_or_error;
}.

(** The class shown for one analysis of a ticker; a ticker without an
    entry has no [classification] to read. *)
Definition shown_class (report : option report_or_error) : string :=
  match report with
  | Some (inl _) => "ERROR"
  | Some (inr report) => classification report
  | None => "ERROR (Invalid Report)"
  end.

(** [2 if "GREAT" in c else 1 if "GOOD" in c else 0] *)
Definition class_rating (c : string) : nat :=
  if contains "GREAT" c then 2 else if contains "GOOD" c then 1 else 0.

(** The four overall recommendations, as the source file spells them. *)
Definition STRONG_BUY : string := "‚≠ê‚≠ê‚≠ê STRONG BUY".
Definition MODERATE_BUY : string := "‚≠ê‚≠ê MODERATE BUY".
Definition SPECULATIVE : string := "‚≠ê SPECULATIVE".
Definition AVOID : string := "‚ùå AVOID".

(** One row of the summary of the two analyses. *)
Definition dual_summary_row (ticker : string)
    (value_report growth_report : option report_or_error) : list string :=
  let value_class := shown_class value_report in
  let growth_class := shown_class growth_report in
  if String.prefix "ERROR" value_class || String.prefix "ERROR" growth_class
  then [ticker; value_class; growth_class; "N/A"]
  else
    let value_rating := class_rating value_class in
    let growth_rating := class_rating growth_class in
    let overall :=
      if (3 <=? value_rating + growth_rating)%nat then STRONG_BUY
      else if (value_rating + growth_rating =? 2)%nat then MODERATE_BUY
      else if (value_rating + growth_rating =? 1)%nat then SPECULATIVE
      else AVOID in
    [ticker; value_class; growth_class; overall].

Definition dual_summary_data (tickers : list string) (report : dual_report)
    : list (list string) :=
  map (λ ticker,
         dual_summary_row ticker
           (odict_get ticker (value_reports report))
           (odict_get ticker (growth_reports report))) tickers.

(** The two runs, for a list of tickers.  The comparisons shown on request
    and the summary table are printed; they change neither what is returned
    nor what is raised. *)
Definition dual_analysis (tickers : list string) : outcome dual_report :=
  '(value_results, value_reports) ←? analyze_multiple_stocks tickers "value";
  '(growth_results, growth_reports) ←?
    analyze_multiple_stocks tickers "growth_momentum";
  Returns {|
    value_results := value_results;
    value_reports := value_reports;
    growth_results := growth_results;
    growth_reports := growth_reports;
  |}.

End Callers.

(** ** Vocabulary of the further properties *)

(** The label that the exact fractions of the counts give: the shares of
    [great] and [no_buy] ratings compared with the thresholds as integers. *)
Definition exact_label (analysis_type : string) (c : rating_counts) : string :=
  let T := total c in
  let g := n_great c in
  let n := n_no_buy c in
  if Nat.eqb T 0 then INSUFFICIENT
  else if decide (analysis_type = "value") then
    if (T <=? 2 * g)%nat && (5 * n <=? T)%nat then "GREAT BUY"
    else if (10 * n <=? 3 * T)%nat then "GOOD BUY"
    else "NO BUY"
  else
    if (2 * T <=? 5 * g)%nat && (10 * n <=? 3 * T)%nat
    then "GREAT GROWTH OPPORTUNITY"
    else if (5 * n <=? 2 * T)%nat then "GOOD GROWTH OPPORTUNITY"
    else "POOR GROWTH OPPORTUNITY".

(** ** Vocabulary of the callers' properties *)

(** The category a report is filed under. *)
Definition category_of (report : report_or_error) : string :=
  match report with
  | inl _ => "ERROR"
  | inr report => classification report
  end.

(** A report in which nothing is rated. *)
Definition unrated (report : report_or_error) : Prop :=
  match report with
  | inl _ => False
  | inr report => rating_details report = ∅
  end.

(** The tickers in the order in which they are first seen. *)
Definition first_seen (tickers : list string) : list string :=
  foldl (λ seen ticker,
           if decide (ticker ∈ seen) then seen else (seen ++ [ticker])%list)
    [] tickers.

Section CallersVocabulary.

Variable fetch_stock_data : string → option StockData.
Variable explain : string → float → rating → string → string.
Variable now : string.

(** What [generate_report] gives for a ticker, and the category it is
    filed under. *)
Definition report_of (analysis_type ticker : string) : option report_or_error :=
  match generate_report fetch_stock_data explain now ticker analysis_type with
  | Ok report => Some report
  | Raise _ => None
  end.

Definition category_of_ticker (analysis_type ticker : string) : string :=
  from_option category_of EmptyString (report_of analysis_type ticker).

(** A ticker whose report rates nothing. *)
Definition unrated_ticker (analysis_type ticker : string) : Prop :=
  ∃ report, report_of analysis_type ticker = Some report ∧ unrated report.

(** The tickers [done] are filed: each category lists, in their order,
    the tickers of the category, and [all_reports] holds the report of each
    ticker once, in the order in which the tickers are first seen. *)
Definition filed (analysis_type : string) (done : list string)
    (results : gmap string (list string))
    (all_reports : odict report_or_error) : Prop :=
  (∀ category,
     results !! category
     = (λ _ : list string,
          filter (λ ticker, category_of_ticker analysis_type ticker = category)
            done)
       <$> (result_categories analysis_type !! category)) ∧
  (∀ ticker,
     odict_get ticker all_reports
     = if decide (ticker ∈ done) then report_of analysis_type ticker else None) ∧
  NoDup all_reports.*1 ∧
  all_reports.*1 = first_seen done.

End CallersVocabulary.

(** ** Vocabulary of the explanations' properties *)

(** The descriptions of an analysis type. *)
Definition descriptions_of (analysis_type : string) : gmap string ratio_info :=
  if decide (analysis_type = "value") then VALUE_DESCRIPTIONS
  else GROWTH_MOMENTUM_DESCRIPTIONS.

(** Every described ratio has criteria with a [great] range. *)
Definition described_has_great_range
    (descriptions : list (string * ratio_info))
    (criteria : gmap string ratio_criteria) : bool :=
  forallb (λ entry : string * ratio_info,
             match criteria !! entry.1 with
             | Some rc => bool_decide (is_Some (range_of rc great))
             | None => false
             end) descriptions.

(** Every ratio with criteria has a description. *)
Definition criteria_described (criteria : list (string * ratio_criteria))
    (descriptions : gmap string ratio_info) : bool :=
  forallb (λ entry : string * ratio_criteria,
             bool_decide (is_Some (descriptions !! entry.1))) criteria.

(** The explanation as [generate_report] stores it: the text that
    [get_ratio_explanation] returns for a value that is not [None]. *)
Definition explanation_text (format_2f str_bound : float → string)
    (ratio_name : string) (ratio_value : float) (r : rating)
    (analysis_type : string) : string :=
  match get_ratio_explanation format_2f str_bound ratio_name
          (Some ratio_value) r analysis_type with
  | Returns text => text
  | Raises _ => EmptyString
  end.


(** ** Sample inputs of the further properties *)

(** A provider that knows two stocks. *)
Definition sample_fetch (ticker : string) : option StockData :=
  if decide (ticker = "ACME") then Some full_stock
  else if decide (ticker = "NODEBT") then Some debt_free_stock
  else None.

(** Renderings that do not look at what they render. *)
Definition sample_text {A} (_ : A) : string := "-".

Definition sample_explain (_ : string) (_ : float) (_ : rating) (_ : string)
    : string := "-".

Definition sample_tabulate (_ : list (list string)) (_ : list string)
    : string := "-".

Definition sample_now : string := "2024-01-01 00:00:00".

(** The report of [six_ratios] under the value rules. *)
Definition sample_report : StockReport := {|
  report_ticker := "SIX";
  company_name := "Six Ratios";
  report_current_price := Some 10%float;
  currency := "USD";
  timestamp := sample_now;
  classification := "GOOD BUY";
  ratios := six_ratios;
  rating_details :=
    {[ "pe_ratio" := great; "pb_ratio" := good; "ps_ratio" := good;
       "debt_to_equity" := good; "roe" := good; "current_ratio" := no_buy ]};
  ratio_explanations := ∅;
  analysis_type := "value";
|}.

(** The ratios of [full_stock] under the growth analysis. *)
Definition sample_growth_ratios : ratios_dict :=
  default ∅ (calculate_ratios (Some full_stock) "growth_momentum").

(** A run over three tickers, one of them named twice and one unknown. *)
Definition sample_tickers : list string := ["ACME"; "NONE"; "NODEBT"; "ACME"].

Definition sample_run
    : outcome (gmap string (list string) * odict report_or_error) :=
  analyze_multiple_stocks sample_fetch sample_explain sample_now
    sample_text sample_text sample_tickers "value".

Definition sample_results : gmap string (list string) :=
  match sample_run with
  | Returns (results, _) => results
  | Raises _ => ∅
  end.

Definition sample_reports : odict report_or_error :=
  match sample_run with
  | Returns (_, all_reports) => all_reports
  | Raises _ => []
  end.


(** A report of [generate_report] with the explanations of
    [get_ratio_explanation]. *)
Definition sample_explained_report : StockReport :=
  match generate_report sample_fetch (explanation_text sample_text sample_text)
          sample_now "ACME" "value" with
  | Ok (inr report) => report
  | _ => sample_report
  end.

(** * Properties *)

(** ** The order of binary64 numbers *)

Section FloatOrder.

Local Ltac cmp_cases :=
  repeat match goal with
  | H : context [Z.compare ?a ?b] |- _ => destruct (Z.compare_spec a b)
  | |- context [Z.compare ?a ?b] => destruct (Z.compare_spec a b)
  | H : context [Pos.compare ?a ?b] |- _ => destruct (Pos.compare_spec a b)
  | |- context [Pos.compare ?a ?b] => destruct (Pos.compare_spec a b)
  end.

Lemma SFltb_leb_trans (x y z : spec_float) :
  SFltb x y = true → SFleb y z = true → SFltb x z = true.
Proof.
  unfold SFltb, SFleb.
  destruct x as [sx|sx| |sx mx ex], y as [sy|sy| |sy my ey],
           z as [sz|sz| |sz mz ez]; simpl;
    repeat match goal with b : bool |- _ => destruct b end; simpl;
    try done;
    change (Pos.compare_cont Eq) with Pos.compare;
    intros Hxy Hyz; cmp_cases; simpl in *; try done; lia.
Qed.

Lemma SFltb_irrefl (x : spec_float) : SFltb x x = false.
Proof.
  unfold SFltb.
  destruct x as [s|s| |s m e]; simpl; try done; destruct s; try done;
    rewrite Z.compare_refl; change (Pos.compare_cont Eq) with Pos.compare;
    by rewrite Pos.compare_refl.
Qed.

(** No number lies below [hi] and at or above [lo] when [hi <= lo]. *)
Lemma float_between_absurd (lo hi v : float) :
  PrimFloat.leb hi lo = true →
  PrimFloat.ltb v hi = true → PrimFloat.leb lo v = true → False.
Proof.
  rewrite !leb_spec, ltb_spec. intros Hhl Hv Hlo.
  pose proof (SFltb_leb_trans _ _ _ (SFltb_leb_trans _ _ _ Hv Hhl) Hlo) as H.
  by rewrite SFltb_irrefl in H.
Qed.

End FloatOrder.

(** ** Counting ratings *)

Lemma count_rating_empty (r : rating) : count_rating r ∅ = 0.
Proof. unfold count_rating. by rewrite map_to_list_empty. Qed.

Lemma count_rating_insert (r w : rating) (d : details_dict) (i : string) :
  d !! i = None →
  count_rating r (<[i := w]> d)
  = (if decide (w = r) then S (count_rating r d) else count_rating r d).
Proof.
  intros Hi. unfold count_rating.
  rewrite (map_to_list_insert d i w Hi). simpl.
  rewrite filter_cons. by destruct (decide (w = r)).
Qed.

Lemma counts_of_empty : counts_of ∅ = no_counts.
Proof. unfold counts_of. by rewrite !count_rating_empty. Qed.

Lemma counts_of_insert (w : rating) (d : details_dict) (i : string) :
  d !! i = None → counts_of (<[i := w]> d) = bump w (counts_of d).
Proof.
  intros Hi. unfold counts_of. rewrite !count_rating_insert by done.
  by destruct w.
Qed.

(** Every value of a details dictionary is one of the three ratings, so
    the three counts add up to its length. *)
Lemma total_counts_of (d : details_dict) : total (counts_of d) = size d.
Proof.
  induction d as [|i w d Hi IH] using map_ind.
  - by rewrite counts_of_empty, map_size_empty.
  - rewrite counts_of_insert, map_size_insert_None by done.
    rewrite <- IH. unfold total. destruct w; simpl; lia.
Qed.

(** ** The loop of [classify_stock] *)

Section Loop.

Variable criteria : gmap string ratio_criteria.

Lemma details_of_lookup (ratios : ratios_dict) (name : string) :
  details_of criteria ratios !! name
  = ratios !! name ≫= rating_of criteria name.
Proof. unfold details_of. by rewrite map_lookup_imap. Qed.

Lemma details_of_insert (ratios : ratios_dict) (name : string) (v : option float) :
  ratios !! name = None →
  details_of criteria (<[name := v]> ratios)
  = match rating_of criteria name v with
    | Some r => <[name := r]> (details_of criteria ratios)
    | None => details_of criteria ratios
    end.
Proof.
  intros Hname. unfold details_of. rewrite map_imap_insert.
  destruct (rating_of criteria name v); [done|].
  apply delete_id. by rewrite map_lookup_imap, Hname.
Qed.

Lemma classify_step_rating_of (name : string) (v : option float)
    (acc : rating_counts * details_dict) :
  classify_step criteria name v acc
  = match rating_of criteria name v with
    | Some r => (bump r acc.1, <[name := r]> acc.2)
    | None => acc
    end.
Proof.
  unfold classify_step, rating_of.
  destruct v as [x|]; simpl; [|done].
  destruct (criteria !! name) as [rc|]; simpl; done.
Qed.

(** The loop leaves in [rating_details] the rating of every entry that
    has one, and in [rating_counts] the number of entries of each rating. *)
Lemma classify_loop_spec (ratios : ratios_dict) :
  classify_loop criteria ratios
  = (counts_of (details_of criteria ratios), details_of criteria ratios).
Proof.
  unfold classify_loop.
  apply (map_fold_weak_ind
    (λ acc m, acc = (counts_of (details_of criteria m), details_of criteria m))).
  - unfold details_of. by rewrite map_imap_empty, counts_of_empty.
  - intros name v m acc Hname ->.
    rewrite classify_step_rating_of, details_of_insert by done.
    destruct (rating_of criteria name v) as [r|]; simpl; [|done].
    rewrite counts_of_insert; [done|].
    by rewrite details_of_lookup, Hname.
Qed.

End Loop.

(** [classify_stock] in closed form: the early returns agree with the
    aggregation of an empty [rating_details]. *)
Lemma classify_stock_spec (ratios : ratios_dict) (t : string) :
  classify_stock (Some ratios) t
  = aggregate t (counts_of (details_of (criteria_of t) ratios))
      (details_of (criteria_of t) ratios).
Proof.
  unfold classify_stock. case_bool_decide as Hempty.
  - subst ratios. unfold details_of. rewrite map_imap_empty, counts_of_empty.
    done.
  - by rewrite classify_loop_spec.
Qed.

Lemma classify_stock_None (t : string) :
  classify_stock None t = Ok (INSUFFICIENT, ∅).
Proof. done. Qed.

(** ** Ranges of a criteria dictionary *)

Lemma separated_disjoint (a b : float * float) (v : float) :
  separated a b = true →
  Num.in_range a.1 a.2 v = true → Num.in_range b.1 b.2 v = true → False.
Proof.
  unfold separated, Num.in_range.
  rewrite orb_true_iff, !andb_true_iff. intros [H|H] [Ha1 Ha2] [Hb1 Hb2].
  - exact (float_between_absurd _ _ _ H Ha2 Hb1).
  - exact (float_between_absurd _ _ _ H Hb2 Ha1).
Qed.

(** A well separated criteria dictionary lists the three ratings in some
    order, with ranges that exclude one another. *)
Lemma well_separated_inv (rc : ratio_criteria) :
  well_separated rc = true →
  ∃ r1 r2 r3 a1 a2 a3,
    rc = [(r1, a1); (r2, a2); (r3, a3)] ∧
    r1 ≠ r2 ∧ r1 ≠ r3 ∧ r2 ≠ r3 ∧
    separated a1 a2 = true ∧ separated a1 a3 = true ∧ separated a2 a3 = true.
Proof.
  unfold well_separated.
  destruct (range_of rc great) as [g|] eqn:Hg; [|done].
  destruct (range_of rc good) as [d|] eqn:Hd; [|done].
  destruct (range_of rc no_buy) as [n|] eqn:Hn; [|done].
  rewrite !andb_true_iff, bool_decide_eq_true.
  intros [[[Hlen Hgd] Hgn] Hdn].
  destruct rc as [|[r1 a1] [|[r2 a2] [|[r3 a3] [|]]]]; try done.
  exists r1, r2, r3, a1, a2, a3.
  assert (∀ x y, separated x y = separated y x) as Hsym.
  { intros. unfold separated. apply orb_comm. }
  unfold range_of in Hg, Hd, Hn; simpl in Hg, Hd, Hn.
  destruct r1, r2, r3; simpl in Hg, Hd, Hn; try discriminate;
    repeat match goal with H : Some _ = Some _ |- _ => injection H as <- end;
    repeat split; try discriminate; try assumption; by rewrite Hsym.
Qed.

(** With separated ranges, the first match of the inner loop is the only
    match: a value is rated [r] exactly when it lies in the range of [r]. *)
Lemma rate_ratio_matches (rc : ratio_criteria) (v : float) (r : rating) :
  well_separated rc = true →
  rate_ratio rc v = Some r ↔ matches rc r v = true.
Proof.
  intros (r1 & r2 & r3 & [lo1 hi1] & [lo2 hi2] & [lo3 hi3] & -> & H12 & H13 & H23
          & S12 & S13 & S23)%well_separated_inv.
  pose proof (separated_disjoint _ _ v S12) as D12.
  pose proof (separated_disjoint _ _ v S13) as D13.
  pose proof (separated_disjoint _ _ v S23) as D23.
  unfold matches, range_of. simpl in *.
  destruct (Num.in_range lo1 hi1 v) eqn:E1, (Num.in_range lo2 hi2 v) eqn:E2,
           (Num.in_range lo3 hi3 v) eqn:E3;
    try (by exfalso; auto);
    repeat case_bool_decide; simpl; rewrite ?E1, ?E2, ?E3;
    split; intros; congruence.
Qed.

(** Hence no value matches two ratings. *)
Lemma matches_unique (rc : ratio_criteria) (v : float) (r r' : rating) :
  well_separated rc = true →
  matches rc r v = true → matches rc r' v = true → r = r'.
Proof.
  intros Hrc H1%rate_ratio_matches H2%rate_ratio_matches; [|done..].
  congruence.
Qed.

(** ... and the rating found does not depend on the order in which the
    ratings are tried. *)
Lemma rate_ratio_order_irrelevant (rc rc' : ratio_criteria) (v : float) :
  well_separated rc = true → rc' ≡ₚ rc → rate_ratio rc' v = rate_ratio rc v.
Proof.
  intros (r1 & r2 & r3 & [lo1 hi1] & [lo2 hi2] & [lo3 hi3] & -> & H12 & H13 & H23
          & S12 & S13 & S23)%well_separated_inv Hperm.
  pose proof (separated_disjoint _ _ v S12) as D12.
  pose proof (separated_disjoint _ _ v S13) as D13.
  pose proof (separated_disjoint _ _ v S23) as D23.
  symmetry in Hperm. apply permutations_Permutation in Hperm.
  cbn in Hperm. rewrite !elem_of_cons, elem_of_nil in Hperm. simpl.
  destruct (Num.in_range lo1 hi1 v) eqn:E1, (Num.in_range lo2 hi2 v) eqn:E2,
           (Num.in_range lo3 hi3 v) eqn:E3;
    try (by exfalso; auto);
    destruct_or!; subst rc'; simpl; rewrite ?E1, ?E2, ?E3; done.
Qed.

(** Both tables are made of well separated criteria dictionaries. *)
Lemma VALUE_CRITERIA_well_separated :
  forallb (λ e, well_separated e.2) VALUE_CRITERIA_items = true.
Proof. vm_compute. reflexivity. Qed.

Lemma GROWTH_MOMENTUM_CRITERIA_well_separated :
  forallb (λ e, well_separated e.2) GROWTH_MOMENTUM_CRITERIA_items = true.
Proof. vm_compute. reflexivity. Qed.

Lemma criteria_of_well_separated (t name : string) (rc : ratio_criteria) :
  criteria_of t !! name = Some rc → well_separated rc = true.
Proof.
  unfold criteria_of. intros H.
  destruct (decide (t = "value"));
    apply elem_of_list_to_map_2, list_elem_of_In in H;
    [ pose proof VALUE_CRITERIA_well_separated as HF
    | pose proof GROWTH_MOMENTUM_CRITERIA_well_separated as HF ];
    rewrite forallb_forall in HF; exact (HF _ H).
Qed.

(** ** Aggregation *)

Lemma truediv_ok (a b : nat) :
  b ≠ 0 → truediv a b = Ok (Num.of_nat a / Num.of_nat b)%float.
Proof. by destruct b. Qed.

Lemma percentages_ok (c : rating_counts) :
  total c ≠ 0 →
  percentages c
  = Ok ((Num.of_nat (n_great c) / Num.of_nat (total c))%float,
        (Num.of_nat (n_good c) / Num.of_nat (total c))%float,
        (Num.of_nat (n_no_buy c) / Num.of_nat (total c))%float).
Proof. intros H. unfold percentages. by rewrite !truediv_ok. Qed.

Lemma percentages_raises (c : rating_counts) :
  percentages c = Raise ZeroDivisionError ↔ total c = 0.
Proof.
  split.
  - intros H. destruct (decide (total c = 0)) as [|Hne]; [done|].
    by rewrite percentages_ok in H.
  - intros H. unfold percentages. by rewrite H.
Qed.

Lemma aggregate_spec (t : string) (c : rating_counts) (d : details_dict) :
  aggregate t c d = Ok (label_of t c, d).
Proof.
  unfold aggregate, label_of.
  destruct (Nat.eqb_spec (total c) 0) as [|Hne]; [done|].
  by rewrite percentages_ok.
Qed.

Lemma final_classification_value (p : float * float * float) :
  final_classification "value" p ∈ VALUE_LABELS.
Proof.
  destruct p as [[gp dp] np]. unfold final_classification, VALUE_LABELS.
  rewrite decide_True by done.
  repeat match goal with |- context [if ?b then _ else _] => destruct b end;
    set_solver.
Qed.

Lemma final_classification_growth (p : float * float * float) :
  final_classification "growth_momentum" p ∈ GROWTH_LABELS.
Proof.
  destruct p as [[gp dp] np]. unfold final_classification, GROWTH_LABELS.
  rewrite decide_False by done.
  repeat match goal with |- context [if ?b then _ else _] => destruct b end;
    set_solver.
Qed.

Lemma final_classification_sufficient (t : string) (p : float * float * float) :
  final_classification t p ≠ INSUFFICIENT.
Proof.
  destruct p as [[gp dp] np]. unfold final_classification.
  repeat match goal with |- context [if ?b then _ else _] => destruct b end;
    discriminate.
Qed.

Lemma label_of_insufficient (t : string) (c : rating_counts) :
  label_of t c = INSUFFICIENT ↔ total c = 0.
Proof.
  unfold label_of. destruct (Nat.eqb_spec (total c) 0) as [|Hne]; [done|].
  split; [|done]. by intros ?%final_classification_sufficient.
Qed.

(** [classify_stock] never raises, and its label is [label_of] the counts
    of its [rating_details]. *)
Lemma classify_stock_Some (ratios : ratios_dict) (t : string) :
  classify_stock (Some ratios) t
  = Ok (label_of t (counts_of (details_of (criteria_of t) ratios)),
        details_of (criteria_of t) ratios).
Proof. by rewrite classify_stock_spec, aggregate_spec. Qed.

Lemma classify_stock_total (ratios : option ratios_dict) (t : string) :
  ∃ d : details_dict, classify_stock ratios t = Ok (label_of t (counts_of d), d).
Proof.
  destruct ratios as [ratios|].
  - eexists. apply classify_stock_Some.
  - exists ∅. by rewrite counts_of_empty.
Qed.

(** ** Ratios outside the criteria table *)

Lemma rating_of_foreign (criteria : gmap string ratio_criteria)
    (name : string) (v : option float) :
  criteria !! name = None → rating_of criteria name v = None.
Proof. intros H. unfold rating_of. destruct v; simpl; by rewrite ?H. Qed.

Lemma details_of_restrict (criteria : gmap string ratio_criteria)
    (ratios : ratios_dict) :
  details_of criteria (restrict_to criteria ratios) = details_of criteria ratios.
Proof.
  apply map_eq. intros i. rewrite !details_of_lookup. unfold restrict_to.
  rewrite map_lookup_filter.
  destruct (ratios !! i) as [v|]; simpl; [|done].
  destruct (criteria !! i) as [rc|] eqn:Hi.
  - rewrite option_guard_True by (simpl; eauto). done.
  - rewrite option_guard_False by (intros [? ?]; simpl in *; congruence).
    simpl. by rewrite rating_of_foreign.
Qed.

Lemma details_of_insert_foreign (criteria : gmap string ratio_criteria)
    (ratios : ratios_dict) (name : string) (v : option float) :
  criteria !! name = None →
  details_of criteria (<[name := v]> ratios) = details_of criteria ratios.
Proof.
  intros Hname. apply map_eq. intros i. rewrite !details_of_lookup.
  destruct (decide (i = name)) as [->|Hne].
  - rewrite lookup_insert_eq. simpl. rewrite rating_of_foreign by done.
    destruct (ratios !! name); simpl; by rewrite ?rating_of_foreign.
  - by rewrite lookup_insert_ne.
Qed.

Lemma tables_share_no_ratio (name : string) :
  is_Some (VALUE_CRITERIA !! name) → is_Some (GROWTH_MOMENTUM_CRITERIA !! name) →
  False.
Proof.
  intros [rc H] [rc' H']. apply elem_of_list_to_map_2 in H.
  unfold VALUE_CRITERIA_items in H.
  repeat (apply elem_of_cons in H as [H|H]; [injection H as -> _; by vm_compute in H'|]).
  by apply elem_of_nil in H.
Qed.

(** * The classifier's claims *)

(** C1 (as stated, refuted).  A ratio with a value and a criteria entry is
    not always rated: a negative [pe_ratio] lies in none of the three ranges
    of its criteria and is left out of [rating_details]. *)
Lemma negative_pe_ratio_unrated :
  ¬ every_criteria_ratio_rated {["pe_ratio" := Some (-5)%float]} "value".
Proof.
  intros H.
  destruct (H "pe_ratio" (-5)%float
              [(great, (0, 15)); (good, (15, 25)); (no_buy, (25, inf))]%float
              eq_refl eq_refl)
    as (label & details & r & _ & _ & Hm).
  destruct r; vm_compute in Hm; discriminate.
Qed.

(** Other values with a criteria entry and no rating: a current ratio of 3
    or more, an analyst recommendation of exactly 5. *)
Example values_outside_every_range :
  rating_of VALUE_CRITERIA "current_ratio" (Some 3.5%float) = None ∧
  rating_of GROWTH_MOMENTUM_CRITERIA "analyst_recommendation" (Some 5%float) = None.
Proof. split; vm_compute; reflexivity. Qed.

(** C1 (amended).  For a ratio with a value [v] and criteria [rc] under the
    analysis type, [classify_stock] records the rating [r] exactly when [v]
    lies in the range of [r] (lower bound inclusive, upper bound exclusive):
    the ratio gets at most one rating, and none when no range holds [v]. *)
Theorem classify_stock_rates_by_range (t : string) (ratios : ratios_dict)
    (name : string) (v : float) (rc : ratio_criteria) :
  ratios !! name = Some (Some v) →
  criteria_of t !! name = Some rc →
  ∃ label details,
    classify_stock (Some ratios) t = Ok (label, details) ∧
    ∀ r, details !! name = Some r ↔ matches rc r v = true.
Proof.
  intros Hv Hrc. rewrite classify_stock_Some.
  eexists _, _. split; [reflexivity|]. intros r.
  rewrite details_of_lookup, Hv. simpl. unfold rating_of. simpl. rewrite Hrc. simpl.
  apply rate_ratio_matches. by eapply criteria_of_well_separated.
Qed.

Lemma classify_stock_rates_by_range_witness :
  ∃ label details,
    classify_stock (Some {["pe_ratio" := Some 20%float]}) "value"
    = Ok (label, details) ∧
    ∀ r, details !! "pe_ratio" = Some r
         ↔ matches [(great, (0, 15)); (good, (15, 25)); (no_buy, (25, inf))]%float
                   r 20%float = true.
Proof.
  apply (classify_stock_rates_by_range "value" _ "pe_ratio" 20%float);
    reflexivity.
Defined.

(** C2.  [classify_stock] always returns a pair; its label is one of the
    three labels of the analysis type or the insufficient-data label, and it
    is the latter exactly when [rating_details] is empty, as it is for
    [None] and for the empty dictionary. *)
Theorem classify_stock_labels (ratios : option ratios_dict) :
  (∃ label details,
     classify_stock ratios "value" = Ok (label, details) ∧
     label ∈ INSUFFICIENT :: VALUE_LABELS ∧
     (label = INSUFFICIENT ↔ details = ∅)) ∧
  (∃ label details,
     classify_stock ratios "growth_momentum" = Ok (label, details) ∧
     label ∈ INSUFFICIENT :: GROWTH_LABELS ∧
     (label = INSUFFICIENT ↔ details = ∅)) ∧
  (∀ t, classify_stock None t = Ok (INSUFFICIENT, ∅) ∧
        classify_stock (Some ∅) t = Ok (INSUFFICIENT, ∅)).
Proof.
  assert (∀ t (d : details_dict),
            label_of t (counts_of d) = INSUFFICIENT ↔ d = ∅) as Hins.
  { intros t d.
    by rewrite label_of_insufficient, total_counts_of, map_size_empty_iff. }
  split; [|split].
  - destruct (classify_stock_total ratios "value") as [d ->].
    eexists _, _. split; [reflexivity|]. split; [|apply Hins].
    unfold label_of. destruct (Nat.eqb _ 0); [left|right].
    apply final_classification_value.
  - destruct (classify_stock_total ratios "growth_momentum") as [d ->].
    eexists _, _. split; [reflexivity|]. split; [|apply Hins].
    unfold label_of. destruct (Nat.eqb _ 0); [left|right].
    apply final_classification_growth.
  - done.
Qed.

(** C3.  Two ratios dictionaries classified under the same analysis type
    whose [rating_details] hold the same numbers of [great], [good] and
    [no_buy] ratings get the same label. *)
Theorem label_depends_only_on_counts (t : string)
    (ratios1 ratios2 : option ratios_dict) :
  ∃ label1 details1 label2 details2,
    classify_stock ratios1 t = Ok (label1, details1) ∧
    classify_stock ratios2 t = Ok (label2, details2) ∧
    (counts_of details1 = counts_of details2 → label1 = label2).
Proof.
  destruct (classify_stock_total ratios1 t) as [d1 ->].
  destruct (classify_stock_total ratios2 t) as [d2 ->].
  eexists _, _, _, _. split; [reflexivity|]. split; [reflexivity|].
  by intros ->.
Qed.

(** Two dictionaries rated differently, ratio by ratio, with equal counts. *)
Example equal_counts_different_ratings :
  classify_stock (Some {["pe_ratio" := Some 10%float; "pb_ratio" := Some 5%float]})
    "value" = Ok ("NO BUY", {["pe_ratio" := great; "pb_ratio" := no_buy]}) ∧
  classify_stock (Some {["pe_ratio" := Some 30%float; "pb_ratio" := Some 1%float]})
    "value" = Ok ("NO BUY", {["pe_ratio" := no_buy; "pb_ratio" := great]}) ∧
  counts_of {["pe_ratio" := great; "pb_ratio" := no_buy]}
  = counts_of {["pe_ratio" := no_buy; "pb_ratio" := great]}.
Proof. repeat split; vm_compute; reflexivity. Qed.

(** C4.  Ratio names outside the criteria table of the analysis type do not
    influence the result: classifying the restriction of the dictionary to
    the table's keys gives the same pair, and so does adding or changing a
    ratio the table does not name.  The two tables name no common ratio, so
    every ratio of the one is foreign to the other. *)
Theorem classify_stock_ignores_other_ratios (t : string) (ratios : ratios_dict) :
  classify_stock (Some ratios) t
  = classify_stock (Some (restrict_to (criteria_of t) ratios)) t ∧
  (∀ name v,
     criteria_of t !! name = None →
     classify_stock (Some (<[name := v]> ratios)) t
     = classify_stock (Some ratios) t) ∧
  (∀ name, is_Some (GROWTH_MOMENTUM_CRITERIA !! name) →
           criteria_of "value" !! name = None) ∧
  (∀ name, is_Some (VALUE_CRITERIA !! name) →
           criteria_of "growth_momentum" !! name = None).
Proof.
  repeat split.
  - rewrite !classify_stock_Some. by rewrite details_of_restrict.
  - intros name v Hname. rewrite !classify_stock_Some.
    by rewrite details_of_insert_foreign.
  - intros name Hg. apply eq_None_not_Some. intros Hv.
    by apply (tables_share_no_ratio name).
  - intros name Hv. apply eq_None_not_Some. intros Hg.
    by apply (tables_share_no_ratio name).
Qed.

(** C8.  In both criteria tables the three ranges of a ratio exclude one
    another: no value matches two ratings, so the rating the inner loop
    stops at is the only one that matches, whatever the order in which the
    ratings are tried. *)
Theorem criteria_ranges_disjoint (criteria : gmap string ratio_criteria)
    (name : string) (rc : ratio_criteria) :
  criteria ∈ [VALUE_CRITERIA; GROWTH_MOMENTUM_CRITERIA] →
  criteria !! name = Some rc →
  (∀ v r r', matches rc r v = true → matches rc r' v = true → r = r') ∧
  (∀ v r, rate_ratio rc v = Some r ↔ matches rc r v = true) ∧
  (∀ rc' v, rc' ≡ₚ rc → rate_ratio rc' v = rate_ratio rc v).
Proof.
  intros Hc Hrc.
  assert (well_separated rc = true) as Hsep.
  { rewrite !elem_of_cons, elem_of_nil in Hc. destruct Hc as [->|[->|[]]].
    - by apply (criteria_of_well_separated "value" name).
    - by apply (criteria_of_well_separated "growth_momentum" name). }
  split; [|split].
  - intros v r r'. by apply matches_unique.
  - intros v r. by apply rate_ratio_matches.
  - intros rc' v. by apply rate_ratio_order_irrelevant.
Qed.

Lemma criteria_ranges_disjoint_witness :
  let rc := [(great, (0.15, inf)); (good, (0.1, 0.15)); (no_buy, (0, 0.1))]%float in
  (∀ v r r', matches rc r v = true → matches rc r' v = true → r = r') ∧
  (∀ v r, rate_ratio rc v = Some r ↔ matches rc r v = true) ∧
  (∀ rc' v, rc' ≡ₚ rc → rate_ratio rc' v = rate_ratio rc v).
Proof.
  apply (criteria_ranges_disjoint VALUE_CRITERIA "roe").
  - apply elem_of_cons. by left.
  - reflexivity.
Defined.

(** * The ratio calculator *)

(** ** Which ratios [calculate_ratios] sets *)

Lemma dom_base_ratios (info : gmap string (option float)) :
  dom (base_ratios info) = dom VALUE_CRITERIA.
Proof.
  unfold base_ratios. rewrite !dom_insert_L, dom_empty_L.
  unfold VALUE_CRITERIA, VALUE_CRITERIA_items. simpl.
  rewrite !dom_insert_L, dom_empty_L.
  apply set_eq. intros x.
  rewrite !elem_of_union, !elem_of_singleton, elem_of_empty. tauto.
Qed.

Lemma dom_GROWTH_MOMENTUM_CRITERIA :
  dom GROWTH_MOMENTUM_CRITERIA
  = {["revenue_growth"; "earnings_growth"; "price_performance_6m";
      "price_performance_1y"; "eps_growth"; "gross_margin";
      "operating_margin"; "relative_strength"; "analyst_recommendation";
      "pe_growth"]}.
Proof.
  unfold GROWTH_MOMENTUM_CRITERIA, GROWTH_MOMENTUM_CRITERIA_items. simpl.
  rewrite !dom_insert_L, dom_empty_L.
  apply set_eq. intros x.
  rewrite !elem_of_union, !elem_of_singleton, elem_of_empty. tauto.
Qed.

Lemma dom_statement_ratios (income balance : option statement)
    (ratios : ratios_dict) :
  "current_ratio" ∈ dom ratios →
  dom (statement_ratios income balance ratios) = dom ratios.
Proof.
  intros Hin. unfold statement_ratios.
  repeat case_match; try done.
  all: rewrite dom_insert_L; apply set_eq; intros x.
  all: rewrite elem_of_union, elem_of_singleton; split; [intros [->|]|]; auto.
Qed.

Lemma dom_price_ratios (hist : list float) (market : option (list float))
    (ratios : ratios_dict) :
  dom ratios ⊆ dom (price_ratios hist market ratios) ∧
  dom (price_ratios hist market ratios)
  ⊆ dom ratios ∪ {["price_performance_6m"; "price_performance_1y";
                   "relative_strength"]}.
Proof.
  unfold price_ratios.
  repeat case_match.
  all: rewrite ?dom_insert_L.
  all: split; intros x; rewrite ?elem_of_union, ?elem_of_singleton; tauto.
Qed.

Lemma dom_growth_ratios (info : gmap string (option float))
    (ratios : ratios_dict) :
  dom ratios ∪ {["revenue_growth"; "earnings_growth"; "eps_growth";
                   "gross_margin"; "operating_margin";
                   "analyst_recommendation"]} ⊆ dom (growth_ratios info ratios) ∧
  dom (growth_ratios info ratios)
  ⊆ dom ratios ∪ {["revenue_growth"; "earnings_growth"; "eps_growth";
                   "gross_margin"; "operating_margin";
                   "analyst_recommendation"; "pe_growth"]}.
Proof.
  unfold growth_ratios.
  repeat case_match.
  all: rewrite ?dom_insert_L.
  all: split; intros x; rewrite ?elem_of_union, ?elem_of_singleton; tauto.
Qed.

(** ** What [calculate_ratios] stores under a name *)

Lemma base_ratios_dividend_yield (info : gmap string (option float)) :
  base_ratios info !! "dividend_yield"
  = Some (dict_get info "dividendYield" (Some 0%float)).
Proof.
  unfold base_ratios. by rewrite !lookup_insert_ne, lookup_insert_eq by discriminate.
Qed.

Lemma base_ratios_debt_to_equity (info : gmap string (option float)) :
  base_ratios info !! "debt_to_equity"
  = Some (if Num.truthy_opt (dict_get info "debtToEquity" None)
          then (λ x, x / 100)%float <$> dict_get info "debtToEquity" None
          else None).
Proof.
  unfold base_ratios. by rewrite !lookup_insert_ne, lookup_insert_eq by discriminate.
Qed.

Lemma base_ratios_defaults (name : string) :
  name ∈ dom VALUE_CRITERIA → name ≠ "dividend_yield" →
  base_ratios ∅ !! name = Some None.
Proof.
  unfold VALUE_CRITERIA, VALUE_CRITERIA_items. simpl.
  rewrite !dom_insert_L, dom_empty_L.
  rewrite !elem_of_union, !elem_of_singleton, elem_of_empty.
  intros H Hne. destruct_or!; subst; try done; vm_compute; reflexivity.
Qed.

Lemma statement_ratios_lookup (income balance : option statement)
    (ratios : ratios_dict) (name : string) :
  name ≠ "current_ratio" →
  statement_ratios income balance ratios !! name = ratios !! name.
Proof.
  intros Hne. unfold statement_ratios.
  repeat case_match; try done; by rewrite lookup_insert_ne.
Qed.

Lemma price_ratios_lookup (hist : list float) (market : option (list float))
    (ratios : ratios_dict) (name : string) :
  name ∉ dom GROWTH_MOMENTUM_CRITERIA →
  price_ratios hist market ratios !! name = ratios !! name.
Proof.
  intros Hne.
  assert (name ≠ "price_performance_6m" ∧ name ≠ "price_performance_1y"
          ∧ name ≠ "relative_strength") as (? & ? & ?).
  { repeat split; intros ->; apply Hne; by vm_compute. }
  unfold price_ratios.
  repeat case_match; by rewrite ?lookup_insert_ne by done.
Qed.

Lemma growth_ratios_lookup (info : gmap string (option float))
    (ratios : ratios_dict) (name : string) :
  name ∉ dom GROWTH_MOMENTUM_CRITERIA →
  growth_ratios info ratios !! name = ratios !! name.
Proof.
  intros Hne.
  assert (name ≠ "revenue_growth" ∧ name ≠ "earnings_growth"
          ∧ name ≠ "eps_growth" ∧ name ≠ "gross_margin"
          ∧ name ≠ "operating_margin" ∧ name ≠ "analyst_recommendation"
          ∧ name ≠ "pe_growth") as (? & ? & ? & ? & ? & ? & ?).
  { repeat split; intros ->; apply Hne; by vm_compute. }
  unfold growth_ratios.
  repeat case_match; by rewrite ?lookup_insert_ne by done.
Qed.

(** Membership in a union of named ratios, from a hypothesis of the same kind. *)
Ltac name_sets H :=
  revert H; rewrite ?elem_of_union, ?elem_of_singleton, ?elem_of_empty; tauto.

Lemma value_ratio_not_growth (name : string) :
  name ∈ dom VALUE_CRITERIA → name ∉ dom GROWTH_MOMENTUM_CRITERIA.
Proof.
  rewrite !elem_of_dom. intros Hv Hg. by apply (tables_share_no_ratio name).
Qed.

(** With a non-empty [info], [calculate_ratios] returns a dictionary that
    holds the nine basic ratios, perhaps ratios of the growth table, and
    nothing else; the basic ratios other than [current_ratio] are as
    [base_ratios] set them. *)
Lemma calculate_ratios_Some (sd : StockData) (t : string) :
  info_empty sd = false →
  ∃ r, calculate_ratios (Some sd) t = Some r ∧
       dom VALUE_CRITERIA ⊆ dom r ∧
       dom r ⊆ dom VALUE_CRITERIA ∪ dom GROWTH_MOMENTUM_CRITERIA ∧
       (t ≠ "growth_momentum" → dom r = dom VALUE_CRITERIA) ∧
       (∀ name, name ∈ dom VALUE_CRITERIA → name ≠ "current_ratio" →
                r !! name = base_ratios (info sd) !! name).
Proof.
  intros Hinfo. unfold calculate_ratios. rewrite Hinfo.
  eexists. split; [reflexivity|].
  assert ("current_ratio" ∈ dom VALUE_CRITERIA) as Hcr by (by vm_compute).
  pose proof (dom_base_ratios (info sd)) as Hbase.
  pose proof (dom_growth_ratios (info sd)) as Hgrow.
  pose proof (λ h, dom_price_ratios h (market_data sd) (base_ratios (info sd)))
    as Hprice.
  rewrite dom_GROWTH_MOMENTUM_CRITERIA.
  destruct (decide (t = "growth_momentum")) as [->|Hne];
    [destruct (historical_data sd) as [[|x hist]|]|].
  - specialize (Hgrow (base_ratios (info sd))) as [Hg1 Hg2].
    rewrite Hbase in Hg1, Hg2.
    rewrite dom_statement_ratios by (by apply Hg1, elem_of_union_l).
    repeat split.
    + intros y Hy. by apply Hg1, elem_of_union_l.
    + intros y Hy%Hg2. name_sets Hy.
    + done.
    + intros name Hv Hcur. rewrite statement_ratios_lookup by done.
      rewrite growth_ratios_lookup; [done|]. by apply value_ratio_not_growth.
  - specialize (Hprice (x :: hist)) as [Hp1 Hp2].
    specialize (Hgrow (price_ratios (x :: hist) (market_data sd)
                         (base_ratios (info sd)))) as [Hg1 Hg2].
    rewrite Hbase in Hp1, Hp2.
    rewrite dom_statement_ratios by (by apply Hg1, elem_of_union_l, Hp1).
    repeat split.
    + intros y Hy. by apply Hg1, elem_of_union_l, Hp1.
    + intros y Hy%Hg2. apply elem_of_union in Hy as [Hy%Hp2|Hy]; name_sets Hy.
    + done.
    + intros name Hv Hcur. rewrite statement_ratios_lookup by done.
      rewrite growth_ratios_lookup, price_ratios_lookup; [done|..];
        by apply value_ratio_not_growth.
  - rewrite dom_statement_ratios by (by rewrite Hbase).
    rewrite Hbase. repeat split; try done.
    + apply union_subseteq_l.
    + intros name Hv Hcur. by rewrite statement_ratios_lookup.
  - rewrite dom_statement_ratios by (by rewrite Hbase).
    rewrite Hbase. repeat split; try done.
    + apply union_subseteq_l.
    + intros name Hv Hcur. by rewrite statement_ratios_lookup.
Qed.

Lemma count_rating_lookup (d : details_dict) (i : string) (r : rating) :
  d !! i = Some r → (1 ≤ count_rating r d)%nat.
Proof.
  intros Hi. rewrite <- (insert_id d i r Hi), <- insert_delete_eq.
  rewrite count_rating_insert by apply lookup_delete_eq.
  rewrite decide_True by done. lia.
Qed.

(** * The calculator's claims *)




(** The upper bound is reached. *)
Example full_stock_has_19_ratios :
  size <$> calculate_ratios (Some full_stock) "growth_momentum" = Some 19%nat.
Proof. vm_compute. reflexivity. Qed.

(** C9 (as stated, refuted).  A provider that supplies no dividend yield
    may send [dividendYield] with the value [None]: the default 0 is then
    not taken, [dividend_yield] stays [None] and the value analysis does
    not rate it. *)
Lemma none_dividend_yield_unrated :
  ¬ missing_dividend_rated none_dividend_stock.
Proof.
  intros H. destruct (H eq_refl) as (r & label & details & Hr & Hdy & _).
  destruct (calculate_ratios_Some none_dividend_stock "value" eq_refl)
    as (r' & Hr' & _ & _ & _ & Hbase).
  rewrite Hr' in Hr. injection Hr as <-.
  rewrite Hbase, base_ratios_dividend_yield in Hdy; [|by vm_compute|done].
  vm_compute in Hdy. discriminate Hdy.
Qed.

(** C9 (amended).  When [info] has no [dividendYield] key,
    [calculate_ratios] stores 0 under [dividend_yield], where every other
    basic ratio defaults to [None]; the value analysis then rates
    [dividend_yield] as [no_buy], which counts among the [no_buy] ratings.
    When the key is there, [dividend_yield] is what the provider sent, and
    a [None] is not rated. *)
Theorem missing_dividend_rated_no_buy (sd : StockData) :
  info_empty sd = false →
  ∃ r label details,
    calculate_ratios (Some sd) "value" = Some r ∧
    classify_stock (Some r) "value" = Ok (label, details) ∧
    (info sd !! "dividendYield" = None →
     r !! "dividend_yield" = Some (Some 0%float) ∧
     details !! "dividend_yield" = Some no_buy ∧
     (1 ≤ count_rating no_buy details)%nat) ∧
    (∀ v, info sd !! "dividendYield" = Some v →
          r !! "dividend_yield" = Some v) ∧
    (info sd !! "dividendYield" = Some None →
     details !! "dividend_yield" = None) ∧
    (∀ name, name ∈ dom VALUE_CRITERIA → name ≠ "dividend_yield" →
             base_ratios ∅ !! name = Some None).
Proof.
  intros Hinfo.
  destruct (calculate_ratios_Some sd "value" Hinfo) as (r & Hr & _ & _ & _ & Hbase).
  assert (r !! "dividend_yield"
          = Some (dict_get (info sd) "dividendYield" (Some 0%float))) as Hdy.
  { rewrite Hbase; [|by vm_compute|done]. apply base_ratios_dividend_yield. }
  exists r. eexists _, _. split; [done|].
  split; [apply classify_stock_Some|].
  unfold dict_get in Hdy. split; [|split; [|split]].
  - intros Hdiv. rewrite Hdiv in Hdy.
    assert (details_of (criteria_of "value") r !! "dividend_yield"
            = Some no_buy) as Hrated.
    { rewrite details_of_lookup, Hdy. reflexivity. }
    split; [done|]. split; [done|].
    by apply (count_rating_lookup _ "dividend_yield").
  - intros v Hdiv. by rewrite Hdiv in Hdy.
  - intros Hdiv. rewrite Hdiv in Hdy.
    rewrite details_of_lookup, Hdy. reflexivity.
  - apply base_ratios_defaults.
Qed.

Lemma missing_dividend_rated_no_buy_witness :
  ∃ r label details,
    calculate_ratios (Some bare_stock) "value" = Some r ∧
    classify_stock (Some r) "value" = Ok (label, details) ∧
    (info bare_stock !! "dividendYield" = None →
     r !! "dividend_yield" = Some (Some 0%float) ∧
     details !! "dividend_yield" = Some no_buy ∧
     (1 ≤ count_rating no_buy details)%nat) ∧
    (∀ v, info bare_stock !! "dividendYield" = Some v →
          r !! "dividend_yield" = Some v) ∧
    (info bare_stock !! "dividendYield" = Some None →
     details !! "dividend_yield" = None) ∧
    (∀ name, name ∈ dom VALUE_CRITERIA → name ≠ "dividend_yield" →
             base_ratios ∅ !! name = Some None).
Proof. apply (missing_dividend_rated_no_buy bare_stock); reflexivity. Defined.

(** A [dividendYield] that is present and [None] stays [None], and is not
    rated. *)
Example none_dividend_unrated :
  let r := base_ratios {["dividendYield" := None]} in
  r !! "dividend_yield" = Some None ∧
  details_of VALUE_CRITERIA r !! "dividend_yield" = None.
Proof. split; vm_compute; reflexivity. Qed.

(** C10.  When [info] has no [debtToEquity], or holds [None] or zero there,
    [calculate_ratios] stores [None] under [debt_to_equity], so the ratio
    is absent from [rating_details] (and from the counts, which count
    [rating_details]), although a debt-to-equity of 0.0 is rated [great] by
    the value table. *)
Theorem zero_debt_is_unrated (sd : StockData) (t : string) :
  info_empty sd = false →
  (info sd !! "debtToEquity" = None ∨
   info sd !! "debtToEquity" = Some None ∨
   ∃ x, info sd !! "debtToEquity" = Some (Some x) ∧ PrimFloat.eqb x 0 = true) →
  ∃ r label details,
    calculate_ratios (Some sd) t = Some r ∧
    r !! "debt_to_equity" = Some None ∧
    classify_stock (Some r) t = Ok (label, details) ∧
    details !! "debt_to_equity" = None ∧
    rating_of VALUE_CRITERIA "debt_to_equity" (Some 0%float) = Some great.
Proof.
  intros Hinfo Hdebt.
  destruct (calculate_ratios_Some sd t Hinfo) as (r & Hr & _ & _ & _ & Hbase).
  assert (r !! "debt_to_equity" = Some None) as Hde.
  { rewrite Hbase; [|by vm_compute|done].
    rewrite base_ratios_debt_to_equity. unfold dict_get.
    destruct Hdebt as [->|[->|(x & -> & Hx)]]; simpl; [done..|].
    unfold Num.truthy. by rewrite Hx. }
  exists r. eexists _, _. split; [done|]. split; [done|].
  split; [apply classify_stock_Some|]. split; [|reflexivity].
  by rewrite details_of_lookup, Hde.
Qed.

Lemma zero_debt_is_unrated_witness :
  ∃ r label details,
    calculate_ratios (Some debt_free_stock) "value" = Some r ∧
    r !! "debt_to_equity" = Some None ∧
    classify_stock (Some r) "value" = Ok (label, details) ∧
    details !! "debt_to_equity" = None ∧
    rating_of VALUE_CRITERIA "debt_to_equity" (Some 0%float) = Some great.
Proof.
  apply (zero_debt_is_unrated debt_free_stock "value"); [reflexivity|].
  right. right. exists 0%float. split; reflexivity.
Defined.

(** * The aggregation arithmetic *)

Lemma counts_upto_complete (n : nat) (c : rating_counts) :
  (total c ≤ n)%nat → c ∈ counts_upto n.
Proof.
  intros Hc. destruct c as [g d k]. unfold total in Hc. simpl in Hc.
  unfold counts_upto.
  apply list_elem_of_bind. exists g. split; [|apply elem_of_seq; lia].
  apply list_elem_of_bind. exists d. split; [|apply elem_of_seq; lia].
  apply list_elem_of_bind. exists k. split; [|apply elem_of_seq; lia].
  apply list_elem_of_singleton. reflexivity.
Qed.

(** Up to ten rated ratios, the three percentages add up, in binary64
    arithmetic, to 1 or to the number just below it. *)
Lemma sum_near_one_upto_10 (c : rating_counts) :
  (0 < total c ≤ 10)%nat → sum_near_one c = true.
Proof.
  intros [Hpos Hle].
  assert (forallb (λ c, Nat.eqb (total c) 0 || Nat.ltb 10 (total c) || sum_near_one c)
            (counts_upto 10) = true) as Hall by (vm_compute; reflexivity).
  rewrite forallb_forall in Hall.
  specialize (Hall c). rewrite <- list_elem_of_In in Hall.
  specialize (Hall (counts_upto_complete 10 c Hle)).
  destruct (Nat.eqb_spec (total c) 0); [lia|].
  destruct (Nat.ltb_spec 10 (total c)); [lia|]. exact Hall.
Qed.

(** No more ratios are rated than the criteria table names. *)
Lemma size_details_of (criteria : gmap string ratio_criteria)
    (ratios : ratios_dict) :
  (size (details_of criteria ratios) ≤ size criteria)%nat.
Proof.
  rewrite <- !size_dom. apply subseteq_size. intros name.
  rewrite !elem_of_dom, details_of_lookup. intros [r Hr].
  destruct (ratios !! name) as [v|]; simpl in Hr; [|done].
  unfold rating_of in Hr. destruct v as [x|]; simpl in Hr; [|done].
  destruct (criteria !! name); [eauto|done].
Qed.

Lemma size_criteria_of (t : string) : (size (criteria_of t) ≤ 10)%nat.
Proof.
  unfold criteria_of. destruct (decide (t = "value")).
  - assert (size VALUE_CRITERIA = 9%nat) as -> by (vm_compute; reflexivity). lia.
  - assert (size GROWTH_MOMENTUM_CRITERIA = 10%nat) as ->
      by (vm_compute; reflexivity). lia.
Qed.

(** C7 (as stated, refuted).  With one [great], four [good] and one
    [no_buy] rating the percentages are 1/6, 4/6 and 1/6 rounded to
    binary64; added as Python adds them they give the number just below 1,
    and the exact sum of the three rounded values is not 1 either. *)
Lemma percentages_of_1_4_1_do_not_sum_to_one :
  ∃ label details,
    classify_stock (Some six_ratios) "value" = Ok (label, details) ∧
    counts_of details = Counts 1 4 1 ∧
    ¬ percentages_sum_to_one (counts_of details) ∧
    ¬ percentages_sum_to_one_exactly (counts_of details).
Proof.
  rewrite classify_stock_Some. eexists _, _. split; [reflexivity|].
  assert (counts_of (details_of (criteria_of "value") six_ratios) = Counts 1 4 1)
    as -> by (vm_compute; reflexivity).
  split; [reflexivity|].
  assert (percentages (Counts 1 4 1)
          = Ok ((Num.of_nat 1 / Num.of_nat 6)%float,
                (Num.of_nat 4 / Num.of_nat 6)%float,
                (Num.of_nat 1 / Num.of_nat 6)%float)) as Hp by reflexivity.
  split.
  - intros (gp & dp & np & Hpc & Hsum). rewrite Hp in Hpc.
    injection Hpc as <- <- <-. vm_compute in Hsum. discriminate.
  - intros (gp & dp & np & x & y & z & Hpc & Hx & Hy & Hz & Hsum).
    rewrite Hp in Hpc. injection Hpc as <- <- <-.
    vm_compute in Hx, Hy, Hz.
    injection Hx as <-. injection Hy as <-. injection Hz as <-.
    vm_compute in Hsum. discriminate.
Qed.

(** C7 (amended).  No division by zero: the percentages raise exactly when
    [total_rated] is zero, and then [classify_stock] has already returned,
    so that it never raises.  When the percentages are computed, the three
    counts add up to [total_rated] and the percentages add up to 1 within
    one rounding: to 1 or to the binary64 number just below 1.
    [strength_percentage] is 0.0 without a division when nothing is rated,
    and [(great_count + good_count) / total_rated * 100] otherwise. *)
Theorem aggregation_never_divides_by_zero :
  (∀ c, percentages c = Raise ZeroDivisionError ↔ total c = 0%nat) ∧
  (∀ t c d, total c = 0%nat → aggregate t c d = Ok (INSUFFICIENT, d)) ∧
  (∀ ratios t, ∃ label details,
     classify_stock ratios t = Ok (label, details) ∧
     total (counts_of details) = size details ∧
     (details ≠ ∅ → sum_near_one (counts_of details) = true)) ∧
  (∀ rep,
     (great_count rep + good_count rep + no_buy_count rep)%nat = total_rated rep ∧
     strength_percentage rep
     = Ok (if Nat.eqb (total_rated rep) 0 then 0%float
           else (Num.of_nat (great_count rep + good_count rep)
                 / Num.of_nat (total_rated rep) * 100)%float)).
Proof.
  split; [apply percentages_raises|]. split; [|split].
  - intros t c d Hc. unfold aggregate. by rewrite Hc.
  - intros ratios t.
    assert (∃ d : details_dict,
              classify_stock ratios t = Ok (label_of t (counts_of d), d) ∧
              (size d ≤ 10)%nat) as (d & -> & Hd).
    { destruct ratios as [ratios|].
      - eexists. split; [apply classify_stock_Some|].
        etrans; [apply size_details_of|apply size_criteria_of].
      - exists ∅. rewrite counts_of_empty, map_size_empty. split; [done|lia]. }
    eexists _, _. split; [reflexivity|]. split; [apply total_counts_of|].
    intros Hne. apply sum_near_one_upto_10. rewrite total_counts_of.
    split; [|done].
    destruct (size d) eqn:Hsz; [|lia]. by apply map_size_empty_iff in Hsz.
  - intros rep. split; [apply (total_counts_of (rating_details rep))|].
    unfold strength_percentage.
    destruct (Nat.eqb_spec (total_rated rep) 0) as [|Hne]; [done|].
    by rewrite truediv_ok.
Qed.

(** * The report assembler *)

Section ReportProperties.

Variable fetch_stock_data : string → option StockData.
Variable get_ratio_explanation : string → float → rating → string → string.
Variable now : string.

(** The loop over [rating_details] explains the rated ratios that hold a
    number, and only them. *)
Lemma explanations_lookup (r : ratios_dict) (t : string) (d : details_dict)
    (name : string) :
  map_fold (explain_step get_ratio_explanation r t) ∅ d !! name
  = rt ← d !! name; v ← mjoin (r !! name);
    Some (get_ratio_explanation name v rt t).
Proof.
  revert name.
  apply (map_fold_weak_ind
    (λ (acc : gmap string string) (m : details_dict),
       ∀ name, acc !! name
               = rt ← m !! name; v ← mjoin (r !! name);
                 Some (get_ratio_explanation name v rt t))).
  - intros name. by rewrite !lookup_empty.
  - intros i rt m acc Hi IH name. unfold explain_step.
    destruct (decide (name = i)) as [->|Hne].
    + rewrite lookup_insert_eq. simpl.
      destruct (r !! i) as [[v|]|] eqn:Hr; simpl.
      * by rewrite lookup_insert_eq.
      * rewrite IH, Hi. done.
      * rewrite IH, Hi. done.
    + rewrite (lookup_insert_ne m) by done. rewrite <- IH.
      destruct (r !! i) as [[v|]|]; by rewrite ?lookup_insert_ne.
Qed.

(** A ratios dictionary returned by [calculate_ratios] is never empty. *)
Lemma calculate_ratios_nonempty (sd : StockData) (t : string) (r : ratios_dict) :
  calculate_ratios (Some sd) t = Some r → r ≠ ∅.
Proof.
  intros Hr. destruct (info_empty sd) eqn:Hinfo.
  - unfold calculate_ratios in Hr. by rewrite Hinfo in Hr.
  - destruct (calculate_ratios_Some sd t Hinfo) as (r' & Hr' & Hlo & _).
    rewrite Hr in Hr'. injection Hr' as <-. intros ->.
    assert ("pe_ratio" ∈ dom VALUE_CRITERIA) as Hin by (by vm_compute).
    apply Hlo in Hin. by rewrite dom_empty_L in Hin.
Qed.

(** C6.  [generate_report] returns an error string exactly when the stock
    data cannot be retrieved or no ratios can be calculated.  Otherwise it
    returns a report holding the ticker, the ratios [calculate_ratios]
    gave, the label and the rating details [classify_stock] gave for them,
    and an explanation for each rated ratio, rendered from its value and
    its rating. *)
Theorem generate_report_result (ticker t : string) :
  let report := generate_report fetch_stock_data get_ratio_explanation now ticker t in
  (∃ out, report = Ok out) ∧
  ((∃ msg, report = Ok (inl msg))
   ↔ fetch_stock_data ticker = None
     ∨ calculate_ratios (fetch_stock_data ticker) t = None) ∧
  (∀ rep, report = Ok (inr rep) →
     ∃ sd r,
       fetch_stock_data ticker = Some sd ∧
       calculate_ratios (Some sd) t = Some r ∧
       report_ticker rep = ticker ∧
       ratios rep = r ∧
       classify_stock (Some r) t = Ok (classification rep, rating_details rep) ∧
       dom (ratio_explanations rep) = dom (rating_details rep) ∧
       ∀ name rt,
         rating_details rep !! name = Some rt →
         ∃ v, r !! name = Some (Some v) ∧
              ratio_explanations rep !! name
              = Some (get_ratio_explanation name v rt t)).
Proof.
  unfold generate_report.
  destruct (fetch_stock_data ticker) as [sd|] eqn:Hfetch.
  2: { split; [eauto|]. split; [|done]. split; [by left|eauto]. }
  destruct (calculate_ratios (Some sd) t) as [r|] eqn:Hcalc.
  2: { split; [eauto|]. split; [|done]. split; [by right|eauto]. }
  pose proof (calculate_ratios_nonempty sd t r Hcalc) as Hne.
  rewrite bool_decide_eq_false_2 by done.
  rewrite classify_stock_Some. cbn [bind].
  set (d := details_of (criteria_of t) r).
  assert (∀ name rt, d !! name = Some rt → ∃ v, r !! name = Some (Some v))
    as Hvalue.
  { intros name rt. unfold d. rewrite details_of_lookup.
    destruct (r !! name) as [[v|]|]; simpl; [eauto|done..]. }
  split; [eauto|]. split.
  { split; [by intros [msg ?]|by intros [?|?]]. }
  intros rep [= <-]. exists sd, r.
  split; [done|]. split; [done|]. split; [reflexivity|]. split; [reflexivity|].
  split; [apply classify_stock_Some|].
  cbn [ratio_explanations rating_details]. fold d. split.
  - apply set_eq. intros name. rewrite !elem_of_dom, explanations_lookup.
    destruct (d !! name) as [rt|] eqn:Hd; simpl.
    + destruct (Hvalue name rt Hd) as [v ->]. simpl. split; eauto.
    + split; by intros [? ?].
  - intros name rt Hd. destruct (Hvalue name rt Hd) as [v Hv].
    exists v. split; [done|]. by rewrite explanations_lookup, Hd, Hv.
Qed.

End ReportProperties.

(** * Further properties *)

(** * Further properties of the classifier *)

(** ** The thresholds on the counts *)

Lemma label_of_other_type (t : string) (c : rating_counts) :
  t ≠ "value" → label_of t c = label_of "growth_momentum" c.
Proof.
  intros Ht. unfold label_of, final_classification.
  rewrite (decide_False (P := t = "value")) by done.
  rewrite (decide_False (P := "growth_momentum" = "value")) by done. done.
Qed.

Lemma exact_label_other_type (t : string) (c : rating_counts) :
  t ≠ "value" → exact_label t c = exact_label "growth_momentum" c.
Proof.
  intros Ht. unfold exact_label.
  rewrite (decide_False (P := t = "value")) by done.
  rewrite (decide_False (P := "growth_momentum" = "value")) by done. done.
Qed.

(** Up to ten rated ratios, rounding does not move a label across a
    threshold. *)
Lemma label_of_exact_upto_10 (t : string) (c : rating_counts) :
  (total c ≤ 10)%nat → label_of t c = exact_label t c.
Proof.
  intros Hle.
  assert (∀ t0, t0 = "value" ∨ t0 = "growth_momentum" →
            forallb (λ c, String.eqb (label_of t0 c) (exact_label t0 c))
              (counts_upto 10) = true) as Hall.
  { intros t0 [->| ->]; vm_compute; reflexivity. }
  assert (∀ t0, t0 = "value" ∨ t0 = "growth_momentum" →
            label_of t0 c = exact_label t0 c) as Hc.
  { intros t0 Ht0. specialize (Hall t0 Ht0). rewrite forallb_forall in Hall.
    apply String.eqb_eq, Hall, list_elem_of_In, counts_upto_complete, Hle. }
  destruct (decide (t = "value")) as [->|Ht].
  - apply Hc. by left.
  - rewrite label_of_other_type, exact_label_other_type by done.
    apply Hc. by right.
Qed.

(** [classify_stock] rates at most ten ratios. *)
Lemma classify_stock_bounded (ratios : option ratios_dict) (t : string) :
  ∃ d : details_dict,
    classify_stock ratios t = Ok (label_of t (counts_of d), d) ∧
    (size d ≤ 10)%nat.
Proof.
  destruct ratios as [ratios|].
  - eexists. split; [apply classify_stock_Some|].
    etrans; [apply size_details_of|apply size_criteria_of].
  - exists ∅. rewrite counts_of_empty, map_size_empty. split; [done|lia].
Qed.

(** X1.  The label [classify_stock] returns is the one the exact shares of
    the counts give: under the value analysis GREAT BUY when at least half
    of the rated ratios are great and at most a fifth are no_buy, otherwise
    GOOD BUY when at most three tenths are no_buy, otherwise NO BUY; under
    the growth analysis the bounds are two fifths and three tenths, then two
    fifths.  The share of great and good ratings that the code also tests
    for the middle label never decides. *)
Theorem classify_stock_exact_label (ratios : option ratios_dict) (t : string) :
  ∃ label details,
    classify_stock ratios t = Ok (label, details) ∧
    label = exact_label t (counts_of details).
Proof.
  destruct (classify_stock_bounded ratios t) as (d & -> & Hd).
  eexists _, _. split; [reflexivity|].
  apply label_of_exact_upto_10. by rewrite total_counts_of.
Qed.

(** ** The value thresholds are the stricter ones *)

Lemma SFleb_trans (x y z : spec_float) :
  SFleb x y = true → SFleb y z = true → SFleb x z = true.
Proof.
  unfold SFleb.
  destruct x as [sx|sx| |sx mx ex], y as [sy|sy| |sy my ey],
           z as [sz|sz| |sz mz ez]; simpl;
    repeat match goal with b : bool |- _ => destruct b end; simpl;
    try done;
    change (Pos.compare_cont Eq) with Pos.compare;
    intros Hxy Hyz;
    repeat match goal with
    | H : context [Z.compare ?a ?b] |- _ => destruct (Z.compare_spec a b)
    | |- context [Z.compare ?a ?b] => destruct (Z.compare_spec a b)
    | H : context [Pos.compare ?a ?b] |- _ => destruct (Pos.compare_spec a b)
    | |- context [Pos.compare ?a ?b] => destruct (Pos.compare_spec a b)
    end; simpl in *; try done; lia.
Qed.

Lemma float_leb_trans (x y z : float) :
  PrimFloat.leb x y = true → PrimFloat.leb y z = true →
  PrimFloat.leb x z = true.
Proof. rewrite !leb_spec. apply SFleb_trans. Qed.

Lemma final_classification_stricter (p : float * float * float) :
  (final_classification "value" p = "GREAT BUY" →
   final_classification "growth_momentum" p = "GREAT GROWTH OPPORTUNITY") ∧
  (final_classification "value" p = "GOOD BUY" →
   final_classification "growth_momentum" p ≠ "POOR GROWTH OPPORTUNITY").
Proof.
  destruct p as [[gp dp] np]. unfold final_classification.
  rewrite (decide_True (P := "value" = "value")) by done.
  rewrite (decide_False (P := "growth_momentum" = "value")) by done.
  assert (∀ x, (0.5 <=? x)%float = true → (0.4 <=? x)%float = true) as Hg.
  { intros x. by apply float_leb_trans. }
  assert (∀ x, (0.6 <=? x)%float = true → (0.5 <=? x)%float = true) as Hs.
  { intros x. by apply float_leb_trans. }
  assert (∀ x, (x <=? 0.2)%float = true → (x <=? 0.3)%float = true) as Hn2.
  { intros x Hx. by apply (float_leb_trans _ _ _ Hx). }
  assert (∀ x, (x <=? 0.3)%float = true → (x <=? 0.4)%float = true) as Hn3.
  { intros x Hx. by apply (float_leb_trans _ _ _ Hx). }
  destruct (0.5 <=? gp)%float eqn:E1, (np <=? 0.2)%float eqn:E2,
           (0.6 <=? gp + dp)%float eqn:E3, (np <=? 0.3)%float eqn:E4; simpl;
    try (pose proof (Hn2 _ E2); congruence);
    rewrite ?(Hg _ E1), ?(Hs _ E3), ?(Hn3 _ E4); simpl;
    (split; [try discriminate; try done|try discriminate]); intros _;
    destruct (0.4 <=? gp)%float; simpl; discriminate.
Qed.

(** X2.  On the same counts the value rules are never the more lenient:
    counts that make a GREAT BUY make a GREAT GROWTH OPPORTUNITY, and counts
    that make a GOOD BUY make at least a GOOD GROWTH OPPORTUNITY. *)
Theorem value_rules_stricter_than_growth (c : rating_counts) (d : details_dict) :
  (aggregate "value" c d = Ok ("GREAT BUY", d) →
   aggregate "growth_momentum" c d = Ok ("GREAT GROWTH OPPORTUNITY", d)) ∧
  (aggregate "value" c d = Ok ("GOOD BUY", d) →
   aggregate "growth_momentum" c d = Ok ("GREAT GROWTH OPPORTUNITY", d) ∨
   aggregate "growth_momentum" c d = Ok ("GOOD GROWTH OPPORTUNITY", d)).
Proof.
  rewrite !aggregate_spec. unfold label_of.
  destruct (Nat.eqb (total c) 0); [split; discriminate|].
  set (p := (_, _, _)).
  destruct (final_classification_stricter p) as [Hgreat Hgood].
  split.
  - intros [= H]. by rewrite (Hgreat H).
  - intros [= H]. specialize (Hgood H).
    pose proof (final_classification_growth p) as Hin.
    unfold GROWTH_LABELS in Hin.
    rewrite !elem_of_cons, elem_of_nil in Hin.
    destruct Hin as [->|[->|[?|[]]]]; [by left|by right|done].
Qed.

(** * Further properties of the ratio calculator *)

Lemma calculate_ratios_growth (sd : StockData) (hist : list float) :
  info_empty sd = false → historical_data sd = Some hist →
  calculate_ratios (Some sd) "growth_momentum"
  = Some (statement_ratios (income_stmt sd) (balance_sheet sd)
            (growth_ratios (info sd)
               (match hist with
                | [] => base_ratios (info sd)
                | _ :: _ => price_ratios hist (market_data sd) (base_ratios (info sd))
                end))).
Proof.
  intros Hinfo Hhist. unfold calculate_ratios. rewrite Hinfo, Hhist.
  by rewrite (decide_True (P := "growth_momentum" = "growth_momentum")).
Qed.

Lemma calculate_ratios_base_only (sd : StockData) (t : string) :
  info_empty sd = false →
  t ≠ "growth_momentum" ∨ historical_data sd = None →
  calculate_ratios (Some sd) t
  = Some (statement_ratios (income_stmt sd) (balance_sheet sd)
            (base_ratios (info sd))).
Proof.
  intros Hinfo Hcase. unfold calculate_ratios. rewrite Hinfo.
  destruct (decide (t = "growth_momentum")) as [->|Hne]; [|done].
  destruct Hcase as [?| ->]; done.
Qed.

Lemma growth_ratios_lookup_other (info : gmap string (option float))
    (ratios : ratios_dict) (name : string) :
  name ∉ ["revenue_growth"; "earnings_growth"; "eps_growth"; "gross_margin";
          "operating_margin"; "analyst_recommendation"; "pe_growth"] →
  growth_ratios info ratios !! name = ratios !! name.
Proof.
  rewrite !not_elem_of_cons. intros (? & ? & ? & ? & ? & ? & ? & _).
  unfold growth_ratios.
  repeat case_match; by rewrite ?lookup_insert_ne by done.
Qed.

Lemma price_ratios_short_history (hist : list float)
    (market : option (list float)) (ratios : ratios_dict) :
  hist ≠ [] → (length hist ≤ 126)%nat →
  ∃ p, price_ratios hist market ratios !! "price_performance_6m" = Some p ∧
       price_ratios hist market ratios !! "price_performance_1y" = Some p.
Proof.
  intros Hne Hlen. exists (price_change (head hist) (last hist)).
  unfold price_ratios.
  rewrite Nat.min_l, Nat.sub_diag by done.
  assert (Nat.ltb 0 (length hist) = true) as ->.
  { apply Nat.ltb_lt. destruct hist; [done|simpl; lia]. }
  assert (hist !! 0%nat = head hist) as -> by (by destruct hist).
  repeat case_match;
    rewrite ?(lookup_insert_ne _ "relative_strength") by done;
    rewrite ?(lookup_insert_ne _ "price_performance_1y" "price_performance_6m")
      by done;
    by rewrite !lookup_insert_eq.
Qed.

(** X3.  With a price history of at most 126 rows the six-month window
    starts at the first row, so the six-month performance is the one-year
    performance. *)
Theorem six_month_performance_of_short_history (sd : StockData)
    (hist : list float) :
  info_empty sd = false →
  historical_data sd = Some hist →
  hist ≠ [] → (length hist ≤ 126)%nat →
  ∃ r p,
    calculate_ratios (Some sd) "growth_momentum" = Some r ∧
    r !! "price_performance_6m" = Some p ∧
    r !! "price_performance_1y" = Some p.
Proof.
  intros Hinfo Hhist Hne Hlen.
  rewrite (calculate_ratios_growth sd hist Hinfo Hhist).
  destruct (price_ratios_short_history hist (market_data sd)
              (base_ratios (info sd)) Hne Hlen) as (p & H6 & H1).
  eexists _, p. split; [reflexivity|].
  rewrite !statement_ratios_lookup by done.
  rewrite !growth_ratios_lookup_other
    by (rewrite !not_elem_of_cons; repeat split; try done; apply not_elem_of_nil).
  destruct hist; done.
Qed.

Lemma six_month_performance_of_short_history_witness :
  ∃ r p,
    calculate_ratios (Some full_stock) "growth_momentum" = Some r ∧
    r !! "price_performance_6m" = Some p ∧
    r !! "price_performance_1y" = Some p.
Proof.
  apply (six_month_performance_of_short_history full_stock [100; 120]%float);
    [reflexivity|reflexivity|discriminate|simpl; lia].
Defined.

Lemma float_ltb_leb (x y : float) :
  PrimFloat.ltb x y = true → PrimFloat.leb x y = true.
Proof.
  rewrite ltb_spec, leb_spec. unfold SFltb, SFleb.
  by destruct (SFcompare (Prim2SF x) (Prim2SF y)) as [[]|].
Qed.

(** Python's [min(1.5, x)] is at most 1.5, whatever [x] is. *)
Lemma py_min_cap (x : float) : PrimFloat.leb (Num.py_min 1.5 x) 1.5 = true.
Proof.
  unfold Num.py_min. destruct (PrimFloat.ltb x 1.5) eqn:Hx.
  - by apply float_ltb_leb.
  - reflexivity.
Qed.

Lemma price_ratios_lookup_other (hist : list float)
    (market : option (list float)) (ratios : ratios_dict) (name : string) :
  name ∉ ["price_performance_6m"; "price_performance_1y"; "relative_strength"] →
  price_ratios hist market ratios !! name = ratios !! name.
Proof.
  rewrite !not_elem_of_cons. intros (? & ? & ? & _).
  unfold price_ratios.
  repeat case_match; by rewrite ?lookup_insert_ne by done.
Qed.

Lemma base_ratios_lookup_None (info : gmap string (option float)) (name : string) :
  name ∉ dom VALUE_CRITERIA → base_ratios info !! name = None.
Proof. rewrite <- (dom_base_ratios info). apply not_elem_of_dom. Qed.

(** What [growth_ratios] leaves under [pe_growth]. *)
Lemma growth_ratios_pe_growth (info : gmap string (option float))
    (ratios : ratios_dict) (v : option float) :
  ratios !! "pe_growth" = None →
  growth_ratios info ratios !! "pe_growth" = Some v →
  ∃ x pe eg,
    v = Some x ∧
    PrimFloat.leb x 1.5 = true ∧
    growth_ratios info ratios !! "pe_ratio" = Some (Some pe) ∧
    growth_ratios info ratios !! "earnings_growth" = Some (Some eg) ∧
    PrimFloat.ltb 0 eg = true ∧
    (PrimFloat.ltb 0 pe = false → x = 0%float).
Proof.
  intros Hnone. unfold growth_ratios.
  set (r6 := <["analyst_recommendation" := _]> _).
  assert (r6 !! "pe_growth" = None) as Hr6.
  { unfold r6. by rewrite !lookup_insert_ne by done. }
  unfold dict_get.
  destruct (r6 !! "pe_ratio") as [[pe|]|] eqn:Hpe; simpl;
    [|by rewrite Hr6..].
  destruct (r6 !! "earnings_growth") as [[eg|]|] eqn:Heg; simpl;
    [|by rewrite Hr6..].
  destruct (PrimFloat.ltb 0 eg) eqn:Hpos; [|by rewrite Hr6].
  rewrite lookup_insert_eq. intros [= <-].
  eexists _, pe, eg. split; [reflexivity|]. split; [apply py_min_cap|].
  rewrite !lookup_insert_ne by done. split; [done|]. split; [done|].
  split; [done|]. by intros ->.
Qed.

(** X4.  The P/E-to-growth score, when [calculate_ratios] sets it, is a
    number of at most 1.5; it is set only beside a known P/E and a positive
    earnings growth, and it is 0 when the P/E is not positive. *)
Theorem pe_growth_is_capped (sd : StockData) (t : string) (r : ratios_dict)
    (v : option float) :
  calculate_ratios (Some sd) t = Some r →
  r !! "pe_growth" = Some v →
  ∃ x pe eg,
    v = Some x ∧
    PrimFloat.leb x 1.5 = true ∧
    r !! "pe_ratio" = Some (Some pe) ∧
    r !! "earnings_growth" = Some (Some eg) ∧
    PrimFloat.ltb 0 eg = true ∧
    (PrimFloat.ltb 0 pe = false → x = 0%float).
Proof.
  intros Hr Hv.
  destruct (info_empty sd) eqn:Hinfo.
  { unfold calculate_ratios in Hr. by rewrite Hinfo in Hr. }
  assert ("pe_growth" ∉ dom VALUE_CRITERIA) as Hfresh by (by vm_compute).
  destruct (decide (t = "growth_momentum")) as [->|Ht];
    [destruct (historical_data sd) as [hist|] eqn:Hhist|].
  - rewrite (calculate_ratios_growth sd hist Hinfo Hhist) in Hr.
    injection Hr as <-.
    rewrite !statement_ratios_lookup by done.
    rewrite statement_ratios_lookup in Hv by done.
    revert Hv. apply growth_ratios_pe_growth.
    destruct hist.
    + by apply base_ratios_lookup_None.
    + rewrite price_ratios_lookup_other
        by (rewrite !not_elem_of_cons; repeat split; try done;
            apply not_elem_of_nil).
      by apply base_ratios_lookup_None.
  - rewrite calculate_ratios_base_only in Hr by auto. injection Hr as <-.
    rewrite statement_ratios_lookup, base_ratios_lookup_None in Hv; done.
  - rewrite calculate_ratios_base_only in Hr by auto. injection Hr as <-.
    rewrite statement_ratios_lookup, base_ratios_lookup_None in Hv; done.
Qed.

Lemma pe_growth_is_capped_witness :
  ∃ x pe eg,
    Some 0.15%float = Some x ∧
    PrimFloat.leb x 1.5 = true ∧
    sample_growth_ratios !! "pe_ratio" = Some (Some pe) ∧
    sample_growth_ratios !! "earnings_growth" = Some (Some eg) ∧
    PrimFloat.ltb 0 eg = true ∧
    (PrimFloat.ltb 0 pe = false → x = 0%float).
Proof.
  apply (pe_growth_is_capped full_stock "growth_momentum" sample_growth_ratios
           (Some 0.15%float)); reflexivity.
Defined.

Lemma statement_ratios_current_ratio (income balance : option statement)
    (r r' : ratios_dict) :
  r !! "current_ratio" = r' !! "current_ratio" →
  statement_ratios income balance r !! "current_ratio"
  = statement_ratios income balance r' !! "current_ratio".
Proof.
  intros Heq. unfold statement_ratios, dict_get. rewrite <- Heq.
  repeat case_match; try done; by rewrite !lookup_insert_eq.
Qed.

(** The nine basic ratios as [calculate_ratios] returns them, whatever the
    analysis type. *)
Lemma calculate_ratios_basic (sd : StockData) (t : string) (name : string) :
  info_empty sd = false → name ∈ dom VALUE_CRITERIA →
  ∃ r, calculate_ratios (Some sd) t = Some r ∧
       r !! name
       = statement_ratios (income_stmt sd) (balance_sheet sd)
           (base_ratios (info sd)) !! name.
Proof.
  intros Hinfo Hname.
  destruct (decide (name = "current_ratio")) as [->|Hne].
  - destruct (decide (t = "growth_momentum")) as [->|Ht];
      [destruct (historical_data sd) as [hist|] eqn:Hhist|].
    + rewrite (calculate_ratios_growth sd hist Hinfo Hhist).
      eexists. split; [reflexivity|].
      apply statement_ratios_current_ratio.
      rewrite growth_ratios_lookup by (by apply value_ratio_not_growth).
      destruct hist; [done|].
      by rewrite price_ratios_lookup by (by apply value_ratio_not_growth).
    + rewrite calculate_ratios_base_only by auto. eauto.
    + rewrite calculate_ratios_base_only by auto. eauto.
  - destruct (calculate_ratios_Some sd t Hinfo) as (r & Hr & _ & _ & _ & Hbase).
    exists r. split; [done|].
    by rewrite statement_ratios_lookup, Hbase.
Qed.

Lemma details_of_ext (criteria : gmap string ratio_criteria)
    (r r' : ratios_dict) :
  (∀ name, is_Some (criteria !! name) → r !! name = r' !! name) →
  details_of criteria r = details_of criteria r'.
Proof.
  intros Heq. apply map_eq. intros name. rewrite !details_of_lookup.
  destruct (criteria !! name) as [rc|] eqn:Hrc.
  - by rewrite Heq by (rewrite Hrc; eauto).
  - destruct (r !! name), (r' !! name); simpl;
      by rewrite ?rating_of_foreign by done.
Qed.

(** X5.  The nine basic ratios do not depend on the analysis type, and so
    neither does the value classification of the ratios computed for a
    stock: the ratios of the growth analysis classify, under the value
    rules, as the ratios of the value analysis. *)
Theorem basic_ratios_independent_of_analysis_type (sd : StockData)
    (t t' : string) :
  (∀ name, name ∈ dom VALUE_CRITERIA →
     (calculate_ratios (Some sd) t ≫= (.!! name))
     = (calculate_ratios (Some sd) t' ≫= (.!! name))) ∧
  classify_stock (calculate_ratios (Some sd) t) "value"
  = classify_stock (calculate_ratios (Some sd) t') "value".
Proof.
  destruct (info_empty sd) eqn:Hinfo.
  { unfold calculate_ratios. rewrite Hinfo. done. }
  assert (∀ name, name ∈ dom VALUE_CRITERIA →
            (calculate_ratios (Some sd) t ≫= (.!! name))
            = (calculate_ratios (Some sd) t' ≫= (.!! name))) as Hsame.
  { intros name Hname.
    destruct (calculate_ratios_basic sd t name Hinfo Hname) as (r & Hr & Hl).
    destruct (calculate_ratios_basic sd t' name Hinfo Hname) as (r' & Hr' & Hl').
    rewrite Hr, Hr'. simpl. by rewrite Hl, Hl'. }
  split; [done|].
  destruct (calculate_ratios_Some sd t Hinfo) as (r & Hr & _).
  destruct (calculate_ratios_Some sd t' Hinfo) as (r' & Hr' & _).
  rewrite Hr, Hr' in Hsame |- *. rewrite !classify_stock_Some.
  rewrite (details_of_ext (criteria_of "value") r r'); [done|].
  intros name Hname%elem_of_dom. by apply Hsame.
Qed.



(** * Further properties of reports *)

Lemma strength_percentage_counts (rep : StockReport) :
  strength_percentage rep = Ok (strength_of (counts_of (rating_details rep))).
Proof.
  unfold strength_percentage, strength_of, total_rated.
  rewrite total_counts_of.
  destruct (Nat.eqb_spec (size (rating_details rep)) 0) as [|Hne]; [done|].
  by rewrite truediv_ok.
Qed.

(** A report that holds what [classify_stock] returned: its label is the
    exact label of the counts of its rating details, which are at most ten. *)
Lemma classified_report (ratios : option ratios_dict) (t : string)
    (rep : StockReport) :
  classify_stock ratios t = Ok (classification rep, rating_details rep) →
  classification rep = exact_label t (counts_of (rating_details rep)) ∧
  (total (counts_of (rating_details rep)) ≤ 10)%nat.
Proof.
  intros H. destruct (classify_stock_bounded ratios t) as (d & Hd & Hsize).
  rewrite Hd in H. injection H as Hl Hdet. subst d.
  rewrite total_counts_of. split; [|done].
  rewrite <- Hl. apply label_of_exact_upto_10. by rewrite total_counts_of.
Qed.

Lemma strength_range_upto_10 (c : rating_counts) :
  (total c ≤ 10)%nat →
  PrimFloat.leb 0 (strength_of c) && PrimFloat.leb (strength_of c) 100 = true ∧
  (PrimFloat.eqb (strength_of c) 100 = true
   ↔ total c ≠ 0%nat ∧ n_no_buy c = 0%nat) ∧
  (PrimFloat.eqb (strength_of c) 0 = true
   ↔ (n_great c + n_good c)%nat = 0%nat).
Proof.
  intros Hle.
  assert (forallb (λ c,
            PrimFloat.leb 0 (strength_of c) && PrimFloat.leb (strength_of c) 100
            && Bool.eqb (PrimFloat.eqb (strength_of c) 100)
                 (negb (Nat.eqb (total c) 0) && Nat.eqb (n_no_buy c) 0)
            && Bool.eqb (PrimFloat.eqb (strength_of c) 0)
                 (Nat.eqb (n_great c + n_good c) 0))
            (counts_upto 10) = true) as Hall by (vm_compute; reflexivity).
  rewrite forallb_forall in Hall.
  specialize (Hall c). rewrite <- list_elem_of_In in Hall.
  specialize (Hall (counts_upto_complete 10 c Hle)).
  rewrite !andb_true_iff, !eqb_true_iff in Hall.
  destruct Hall as [[[H0 H100] Heq100] Heq0].
  split; [by rewrite H0, H100|]. split.
  - rewrite Heq100, andb_true_iff, negb_true_iff, Nat.eqb_neq, Nat.eqb_eq. done.
  - by rewrite Heq0, Nat.eqb_eq.
Qed.

(** X7.  The strength of a report that holds a classification of
    [classify_stock] is a percentage between 0 and 100; it is 100 exactly
    when something is rated and nothing is rated no_buy, and 0 exactly when
    nothing is rated great or good. *)
Theorem strength_percentage_range (ratios : option ratios_dict) (t : string)
    (rep : StockReport) :
  classify_stock ratios t = Ok (classification rep, rating_details rep) →
  ∃ p, strength_percentage rep = Ok p ∧
       PrimFloat.leb 0 p && PrimFloat.leb p 100 = true ∧
       (PrimFloat.eqb p 100 = true
        ↔ total_rated rep ≠ 0%nat ∧ no_buy_count rep = 0%nat) ∧
       (PrimFloat.eqb p 0 = true
        ↔ (great_count rep + good_count rep)%nat = 0%nat).
Proof.
  intros [_ Hle]%classified_report.
  rewrite strength_percentage_counts. eexists. split; [reflexivity|].
  destruct (strength_range_upto_10 _ Hle) as (Hrange & H100 & H0).
  split; [done|]. split; [|done].
  rewrite H100. unfold total_rated. by rewrite total_counts_of.
Qed.

Lemma strength_percentage_range_witness :
  ∃ p, strength_percentage sample_report = Ok p ∧
       PrimFloat.leb 0 p && PrimFloat.leb p 100 = true ∧
       (PrimFloat.eqb p 100 = true
        ↔ total_rated sample_report ≠ 0%nat ∧ no_buy_count sample_report = 0%nat) ∧
       (PrimFloat.eqb p 0 = true
        ↔ (great_count sample_report + good_count sample_report)%nat = 0%nat).
Proof.
  apply (strength_percentage_range (Some six_ratios) "value" sample_report).
  reflexivity.
Defined.

Lemma strength_by_label_upto_10 (t : string) (c : rating_counts) :
  (total c ≤ 10)%nat →
  let l := exact_label t c in
  let p := strength_of c in
  (l = "GREAT BUY" → PrimFloat.leb 80 p = true) ∧
  (l = "GOOD BUY" → PrimFloat.leb 70 p = true) ∧
  (l = "NO BUY" → PrimFloat.ltb p 70 = true) ∧
  (l = "GREAT GROWTH OPPORTUNITY" → PrimFloat.leb 70 p = true) ∧
  (l = "GOOD GROWTH OPPORTUNITY" → PrimFloat.leb 60 p = true) ∧
  (l = "POOR GROWTH OPPORTUNITY" → PrimFloat.ltb p 60 = true).
Proof.
  intros Hle.
  set (check := λ (t0 : string) (c : rating_counts),
         let l := exact_label t0 c in
         let p := strength_of c in
         implb (String.eqb l "GREAT BUY") (PrimFloat.leb 80 p)
         && implb (String.eqb l "GOOD BUY") (PrimFloat.leb 70 p)
         && implb (String.eqb l "NO BUY") (PrimFloat.ltb p 70)
         && implb (String.eqb l "GREAT GROWTH OPPORTUNITY") (PrimFloat.leb 70 p)
         && implb (String.eqb l "GOOD GROWTH OPPORTUNITY") (PrimFloat.leb 60 p)
         && implb (String.eqb l "POOR GROWTH OPPORTUNITY") (PrimFloat.ltb p 60)).
  assert (∀ t0, t0 = "value" ∨ t0 = "growth_momentum" →
            forallb (check t0) (counts_upto 10) = true) as Hall.
  { intros t0 [->| ->]; vm_compute; reflexivity. }
  assert (check t c = true) as Hc.
  { destruct (decide (t = "value")) as [->|Ht].
    - specialize (Hall "value" (or_introl eq_refl)).
      rewrite forallb_forall in Hall.
      apply Hall, list_elem_of_In, counts_upto_complete, Hle.
    - unfold check. rewrite exact_label_other_type by done.
      specialize (Hall "growth_momentum" (or_intror eq_refl)).
      rewrite forallb_forall in Hall.
      apply Hall, list_elem_of_In, counts_upto_complete, Hle. }
  unfold check in Hc. cbn zeta in Hc |- *. clear Hall check.
  revert Hc. generalize (exact_label t c) (strength_of c). intros l p.
  rewrite !andb_true_iff. intros [[[[[H1 H2] H3] H4] H5] H6].
  repeat split; intros ->; assumption.
Qed.

(** X8.  The label bounds the strength of a report that holds a
    classification of [classify_stock]: a GREAT BUY has a strength of at
    least 80, a GOOD BUY of at least 70 and a NO BUY of less than 70; a
    GREAT GROWTH OPPORTUNITY has at least 70, a GOOD one at least 60 and a
    POOR one less than 60. *)
Theorem strength_percentage_by_label (ratios : option ratios_dict) (t : string)
    (rep : StockReport) :
  classify_stock ratios t = Ok (classification rep, rating_details rep) →
  ∃ p, strength_percentage rep = Ok p ∧
       (classification rep = "GREAT BUY" → PrimFloat.leb 80 p = true) ∧
       (classification rep = "GOOD BUY" → PrimFloat.leb 70 p = true) ∧
       (classification rep = "NO BUY" → PrimFloat.ltb p 70 = true) ∧
       (classification rep = "GREAT GROWTH OPPORTUNITY" →
        PrimFloat.leb 70 p = true) ∧
       (classification rep = "GOOD GROWTH OPPORTUNITY" →
        PrimFloat.leb 60 p = true) ∧
       (classification rep = "POOR GROWTH OPPORTUNITY" →
        PrimFloat.ltb p 60 = true).
Proof.
  intros [Hl Hle]%classified_report.
  rewrite strength_percentage_counts. eexists. split; [reflexivity|].
  rewrite Hl. apply (strength_by_label_upto_10 t _ Hle).
Qed.

Lemma strength_percentage_by_label_witness :
  ∃ p, strength_percentage sample_report = Ok p ∧
       (classification sample_report = "GREAT BUY" → PrimFloat.leb 80 p = true) ∧
       (classification sample_report = "GOOD BUY" → PrimFloat.leb 70 p = true) ∧
       (classification sample_report = "NO BUY" → PrimFloat.ltb p 70 = true) ∧
       (classification sample_report = "GREAT GROWTH OPPORTUNITY" →
        PrimFloat.leb 70 p = true) ∧
       (classification sample_report = "GOOD GROWTH OPPORTUNITY" →
        PrimFloat.leb 60 p = true) ∧
       (classification sample_report = "POOR GROWTH OPPORTUNITY" →
        PrimFloat.ltb p 60 = true).
Proof.
  apply (strength_percentage_by_label (Some six_ratios) "value" sample_report).
  reflexivity.
Defined.

(** The label of [classify_stock] and the words the summary looks for. *)
Lemma exact_label_words (t : string) (c : rating_counts) :
  let l := exact_label t c in
  (contains "GREAT" l = true ↔ l = "GREAT BUY" ∨ l = "GREAT GROWTH OPPORTUNITY") ∧
  (contains "GOOD" l = true ↔ l = "GOOD BUY" ∨ l = "GOOD GROWTH OPPORTUNITY").
Proof.
  unfold exact_label.
  repeat match goal with |- context [if ?b then _ else _] => destruct b end;
    cbn zeta; split; split; intros H;
    try (by vm_compute in H); try (by vm_compute);
    try (destruct H as [H|H]; discriminate); auto.
Qed.

(** X9.  The summary of a report that holds a classification of
    [classify_stock] follows the label: the strong-fundamentals or
    strong-growth sentence exactly for the GREAT labels, the decent one
    exactly for the GOOD labels; a report with nothing rated, labelled as
    insufficient data, is summarised like a NO BUY or a POOR GROWTH
    OPPORTUNITY, as a stock with concerning indicators or one that lacks
    growth. *)
Theorem summary_follows_label (ratios : option ratios_dict) (t : string)
    (rep : StockReport) :
  classify_stock ratios t = Ok (classification rep, rating_details rep) →
  analysis_type rep = t →
  (classification rep = "GREAT BUY" ∨
   classification rep = "GREAT GROWTH OPPORTUNITY"
   ↔ summary rep ∈
       ["This stock shows strong fundamentals across multiple metrics and may be undervalued.";
        "This stock shows strong growth and momentum across multiple metrics and may be poised for continued outperformance."]) ∧
  (classification rep = "GOOD BUY" ∨
   classification rep = "GOOD GROWTH OPPORTUNITY"
   ↔ summary rep ∈
       ["This stock shows decent fundamentals with some strengths, suggesting a reasonable investment.";
        "This stock shows decent growth and momentum characteristics, suggesting potential for continued performance."]) ∧
  (rating_details rep = ∅ →
   summary rep
   = if decide (t = "value")
     then "This stock has several concerning indicators and may not be a good value investment at current prices."
     else "This stock lacks sufficient growth and momentum characteristics to be considered a strong growth investment.").
Proof.
  intros [Hl _]%classified_report Ht.
  destruct (exact_label_words t (counts_of (rating_details rep))) as [Hgreat Hgood].
  rewrite <- Hl in Hgreat, Hgood. unfold summary. rewrite Ht.
  split; [|split].
  - rewrite <- Hgreat.
    destruct (contains "GREAT" (classification rep));
      repeat case_match; rewrite !elem_of_cons, elem_of_nil;
      split; intros Hs; try done; try (by auto);
      destruct Hs as [Hs|[Hs|[]]]; discriminate.
  - rewrite <- Hgood. destruct Hgreat as [Hgreat _].
    destruct (contains "GREAT" (classification rep)) eqn:Eg.
    + destruct (Hgreat eq_refl) as [Hc|Hc]; rewrite Hc;
        case_match; rewrite !elem_of_cons, elem_of_nil;
        split; intros Hs; try (by vm_compute in Hs);
        destruct Hs as [Hs|[Hs|[]]]; discriminate.
    + destruct (contains "GOOD" (classification rep));
        repeat case_match; rewrite !elem_of_cons, elem_of_nil;
        split; intros Hs; try done; try (by auto);
        destruct Hs as [Hs|[Hs|[]]]; discriminate.
  - intros Hempty. rewrite Hl, Hempty, counts_of_empty. done.
Qed.

Lemma summary_follows_label_witness :
  classify_stock (Some six_ratios) "value"
  = Ok (classification sample_report, rating_details sample_report) ∧
  summary sample_report
  ∈ ["This stock shows decent fundamentals with some strengths, suggesting a reasonable investment.";
     "This stock shows decent growth and momentum characteristics, suggesting potential for continued performance."].
Proof.
  split; [reflexivity|].
  apply (summary_follows_label (Some six_ratios) "value" sample_report);
    [reflexivity|reflexivity|by left].
Defined.

(** * Properties of the callers *)

(** ** Ordered dictionaries *)

Lemma odict_get_set {V} (k k' : string) (v : V) (d : odict V) :
  odict_get k' (odict_set k v d)
  = if decide (k' = k) then Some v else odict_get k' d.
Proof.
  induction d as [|[k0 v0] d IH]; simpl.
  - destruct (decide (k = k')), (decide (k' = k)); congruence.
  - destruct (decide (k0 = k)) as [->|Hne]; simpl.
    + destruct (decide (k = k')), (decide (k' = k)); congruence.
    + rewrite IH.
      destruct (decide (k0 = k')), (decide (k' = k)); congruence.
Qed.

Lemma odict_set_keys_old {V} (k : string) (v : V) (d : odict V) :
  k ∈ d.*1 → (odict_set k v d).*1 = d.*1.
Proof.
  induction d as [|[k0 v0] d IH]; csimpl.
  - intros H. by apply elem_of_nil in H.
  - intros H. destruct (decide (k0 = k)) as [->|Hne]; csimpl; [done|].
    apply elem_of_cons in H as [?|H]; [congruence|]. by rewrite IH.
Qed.

Lemma odict_set_keys_new {V} (k : string) (v : V) (d : odict V) :
  k ∉ d.*1 → (odict_set k v d).*1 = (d.*1 ++ [k])%list.
Proof.
  induction d as [|[k0 v0] d IH]; csimpl; [done|].
  rewrite not_elem_of_cons. intros [Hne Hnin].
  rewrite decide_False by done. csimpl. by rewrite IH.
Qed.

Lemma odict_set_NoDup {V} (k : string) (v : V) (d : odict V) :
  NoDup d.*1 → NoDup (odict_set k v d).*1.
Proof.
  intros Hd. destruct (decide (k ∈ d.*1)) as [Hin|Hnin].
  - by rewrite odict_set_keys_old.
  - rewrite odict_set_keys_new by done.
    apply NoDup_app. split; [done|]. split.
    + intros x Hx Hk. apply list_elem_of_singleton in Hk. by subst.
    + apply NoDup_singleton.
Qed.

Lemma odict_get_elem_of {V} (k : string) (v : V) (d : odict V) :
  NoDup d.*1 → (k, v) ∈ d → odict_get k d = Some v.
Proof.
  induction d as [|[k0 v0] d IH]; csimpl.
  - intros _ H. by apply elem_of_nil in H.
  - rewrite NoDup_cons, elem_of_cons. intros [Hk0 Hd] [[= -> ->]|Hin].
    + by rewrite decide_True.
    + rewrite decide_False; [by apply IH|].
      intros ->. apply Hk0. apply list_elem_of_fmap. by exists (k, v).
Qed.

Lemma odict_get_Some_key {V} (k : string) (v : V) (d : odict V) :
  odict_get k d = Some v → (k, v) ∈ d.
Proof.
  induction d as [|[k0 v0] d IH]; simpl; [done|].
  destruct (decide (k0 = k)) as [->|Hne].
  - intros [= ->]. apply elem_of_cons. by left.
  - intros H. apply elem_of_cons. right. by apply IH.
Qed.

(** ** The reports behind the callers *)

Lemma final_classification_labels (t : string) (p : float * float * float) :
  final_classification t p
  ∈ (if decide (t = "value") then VALUE_LABELS else GROWTH_LABELS).
Proof.
  destruct (decide (t = "value")) as [->|Ht].
  - apply final_classification_value.
  - pose proof (final_classification_growth p) as H.
    destruct p as [[gp dp] np]. unfold final_classification in *.
    rewrite (decide_False (P := t = "value")) by done.
    by rewrite (decide_False (P := "growth_momentum" = "value")) in H by done.
Qed.

(** A label is a category of the run exactly when something is rated. *)
Lemma label_of_category (t : string) (c : rating_counts) :
  is_Some (result_categories t !! label_of t c) ↔ total c ≠ 0%nat.
Proof.
  unfold label_of. destruct (Nat.eqb_spec (total c) 0) as [Hz|Hnz].
  - split; [|done]. intros [l Hl]. exfalso. unfold result_categories in Hl.
    destruct (decide (t = "value")); vm_compute in Hl; discriminate.
  - split; [done|]. intros _.
    pose proof (final_classification_labels t
      ((Num.of_nat (n_great c) / Num.of_nat (total c))%float,
       (Num.of_nat (n_good c) / Num.of_nat (total c))%float,
       (Num.of_nat (n_no_buy c) / Num.of_nat (total c))%float)) as Hl.
    unfold result_categories.
    destruct (decide (t = "value"));
      unfold VALUE_LABELS, GROWTH_LABELS in Hl;
      rewrite !elem_of_cons, elem_of_nil in Hl;
      destruct Hl as [->|[->|[->|[]]]]; by eexists; vm_compute.
Qed.

Section ReportsOfCallers.

Variable fetch_stock_data : string → option StockData.
Variable explain : string → float → rating → string → string.
Variable now : string.

(** [generate_report] never raises; a report it returns holds the ratios
    of the ticker, their rating details and the label of the counts. *)
Lemma generate_report_Ok (ticker t : string) :
  ∃ out,
    generate_report fetch_stock_data explain now ticker t = Ok out ∧
    match out with
    | inl _ => calculate_ratios (fetch_stock_data ticker) t = None
    | inr rep =>
        ∃ r, calculate_ratios (fetch_stock_data ticker) t = Some r ∧
             analysis_type rep = t ∧
             ratios rep = r ∧
             rating_details rep = details_of (criteria_of t) r ∧
             classification rep = label_of t (counts_of (rating_details rep))
    end.
Proof.
  unfold generate_report.
  destruct (fetch_stock_data ticker) as [sd|] eqn:Hfetch;
    [|eexists; split; [reflexivity|done]].
  destruct (calculate_ratios (Some sd) t) as [r|] eqn:Hcalc;
    [|eexists; split; [reflexivity|done]].
  rewrite bool_decide_eq_false_2
    by (by apply (calculate_ratios_nonempty sd t)).
  rewrite classify_stock_Some. cbn [bind].
  eexists. split; [reflexivity|]. exists r. done.
Qed.

Lemma report_of_Some (t ticker : string) :
  ∃ out, report_of fetch_stock_data explain now t ticker = Some out ∧
         generate_report fetch_stock_data explain now ticker t = Ok out.
Proof.
  unfold report_of.
  destruct (generate_report_Ok ticker t) as (out & -> & _). eauto.
Qed.

(** The category of a report is one of the run exactly when the report
    rates something or is an error. *)
Lemma category_known (t ticker : string) (out : report_or_error) :
  report_of fetch_stock_data explain now t ticker = Some out →
  (is_Some (result_categories t !! category_of out) ↔ ¬ unrated out) ∧
  (unrated out → category_of out = INSUFFICIENT).
Proof.
  unfold report_of.
  destruct (generate_report_Ok ticker t) as (out' & -> & Hout).
  intros [= ->]. destruct out as [msg|rep]; simpl.
  - split; [|done]. split; [auto|]. intros _. unfold result_categories.
    destruct (decide (t = "value")); by eexists; vm_compute.
  - destruct Hout as (r & _ & _ & _ & _ & ->).
    rewrite label_of_category, total_counts_of, <- map_size_empty_iff.
    split; [done|]. intros Hz. apply label_of_insufficient.
    by rewrite total_counts_of.
Qed.


End ReportsOfCallers.

(** ** Several stocks *)

Section AnalyzeMultiple.

Variable fetch_stock_data : string → option StockData.
Variable explain : string → float → rating → string → string.
Variable now : string.
Variable str_int : nat → string.
Variable format_1f : float → string.

Local Abbreviation rep_of := (report_of fetch_stock_data explain now).
Local Abbreviation cat_of := (category_of_ticker fetch_stock_data explain now).
Local Abbreviation is_unrated := (unrated_ticker fetch_stock_data explain now).
Local Abbreviation is_filed := (filed fetch_stock_data explain now).
Local Abbreviation step := (process_ticker fetch_stock_data explain now).
Local Abbreviation run :=
  (analyze_multiple_stocks fetch_stock_data explain now str_int format_1f).

Lemma result_categories_start (t category : string) (l : list string) :
  result_categories t !! category = Some l → l = [].
Proof.
  unfold result_categories.
  destruct (decide (t = "value"));
    rewrite !lookup_insert_Some, lookup_singleton_Some; intros H;
    repeat (destruct H as [[_ H]|[_ H]]; [congruence|]);
    destruct H; congruence.
Qed.

Lemma filed_start (t : string) : is_filed t [] (result_categories t) [].
Proof.
  split; [|split; [|split]].
  - intros c. destruct (result_categories t !! c) as [l|] eqn:Hc; [|done].
    by rewrite (result_categories_start t c l Hc).
  - intros tk. cbn [odict_get].
    destruct (decide (tk ∈ [])) as [H|]; [by apply elem_of_nil in H|done].
  - constructor.
  - done.
Qed.

(** One turn of the loop: an unrated report raises, any other report is
    filed. *)
Lemma process_ticker_filed (t ticker : string) (done : list string)
    (results : gmap string (list string)) (reps : odict report_or_error) :
  is_filed t done results reps →
  (is_unrated t ticker ∧
   step t ticker (results, reps) = Raises (KeyError INSUFFICIENT)) ∨
  (¬ is_unrated t ticker ∧
   ∃ results' reps',
     step t ticker (results, reps) = Returns (results', reps') ∧
     is_filed t (done ++ [ticker]) results' reps').
Proof.
  intros (Hres & Hreps & Hnodup & Hkeys).
  destruct (report_of_Some fetch_stock_data explain now t ticker)
    as (out & Hout & Hgen).
  destruct (category_known fetch_stock_data explain now t ticker out Hout)
    as [Hknown Hins].
  assert (cat_of t ticker = category_of out) as Hcat.
  { unfold category_of_ticker. by rewrite Hout. }
  assert (step t ticker (results, reps)
          = (results' ←? append_ticker (category_of out) ticker results;
             Returns (results', odict_set ticker out reps))) as Hstep.
  { unfold process_ticker. rewrite Hgen. by destruct out. }
  rewrite Hstep. unfold append_ticker, dict_item. rewrite Hres.
  destruct (result_categories t !! category_of out) as [l0|] eqn:Hc; simpl.
  - right.
    assert (¬ unrated out) as Hrated by (apply Hknown; eauto).
    split.
    { intros (out' & Hout' & Hun). rewrite Hout in Hout'. by injection Hout' as <-. }
    eexists _, _. split; [reflexivity|]. split; [|split; [|split]].
    + intros c. rewrite filter_app, filter_cons, filter_nil.
      destruct (decide (c = category_of out)) as [->|Hne].
      * rewrite lookup_insert_eq, Hc. simpl.
        rewrite decide_True by done. done.
      * rewrite lookup_insert_ne by done. rewrite Hres.
        rewrite decide_False by congruence. by rewrite app_nil_r.
    + intros tk. rewrite odict_get_set, Hreps.
      destruct (decide (tk = ticker)) as [->|Hne].
      * rewrite decide_True; [done|]. apply elem_of_app. right.
        by apply list_elem_of_singleton.
      * destruct (decide (tk ∈ done)) as [Hin|Hnin].
        -- rewrite decide_True; [done|]. apply elem_of_app. by left.
        -- rewrite decide_False; [done|]. rewrite elem_of_app.
           intros [?|?%list_elem_of_singleton]; done.
    + by apply odict_set_NoDup.
    + unfold first_seen. rewrite foldl_app. cbn [foldl].
      fold (first_seen done). rewrite <- Hkeys.
      destruct (decide (ticker ∈ reps.*1)) as [Hin|Hnin].
      * by apply odict_set_keys_old.
      * by apply odict_set_keys_new.
  - left.
    assert (unrated out) as Hun.
    { destruct out as [msg|rep]; simpl.
      - destruct Hknown as [_ Hk]. destruct Hk as [? Hk]; [auto|].
        simpl in Hc. congruence.
      - destruct (decide (rating_details rep = ∅)) as [|Hne]; [done|].
        destruct Hknown as [_ Hk]. destruct (Hk Hne) as [? Hk'].
        simpl in Hc. congruence. }
    split; [by exists out|]. by rewrite (Hins Hun).
Qed.

(** The loop over the tickers. *)
Lemma for_each_filed (t : string) (tickers done : list string)
    (results : gmap string (list string)) (reps : odict report_or_error) :
  is_filed t done results reps →
  (Exists (is_unrated t) tickers ∧
   for_each (step t) tickers (results, reps)
   = Raises (KeyError INSUFFICIENT)) ∨
  (Forall (λ ticker, ¬ is_unrated t ticker) tickers ∧
   ∃ results' reps',
     for_each (step t) tickers (results, reps)
     = Returns (results', reps') ∧
     is_filed t (done ++ tickers) results' reps').
Proof.
  revert done results reps.
  induction tickers as [|ticker tickers IH]; intros done results reps Hfiled.
  - right. split; [constructor|]. exists results, reps.
    by rewrite app_nil_r.
  - cbn [for_each].
    destruct (process_ticker_filed t ticker done results reps Hfiled)
      as [[Hun ->]|(Hrated & results' & reps' & -> & Hfiled')].
    + left. split; [by constructor|done].
    + cbn [and_then].
      destruct (IH _ _ _ Hfiled') as [[Hex Hrun]|(Hall & r'' & a'' & Hrun & Hf)].
      * left. split; [by apply Exists_cons_tl|done].
      * right. split; [by constructor|]. exists r'', a''.
        split; [done|]. by rewrite <- app_assoc in Hf.
Qed.

(** The summary table is computed without a division by zero when every
    report rates something. *)
Lemma collect_summary_row (reps : odict report_or_error) :
  (∀ ticker report, (ticker, inr report) ∈ reps → rating_details report ≠ ∅) →
  ∃ rows, collect (summary_row str_int format_1f) reps = Returns rows.
Proof.
  induction reps as [|[ticker out] reps IH]; intros Hrated; [by eexists|].
  cbn [collect].
  assert (∃ row, summary_row str_int format_1f (ticker, out) = Returns row)
    as [row ->].
  { destruct out as [msg|rep]; [by eexists|]. cbn [summary_row].
    rewrite truediv_ok; [by eexists|].
    rewrite map_size_empty_iff. apply (Hrated ticker). apply elem_of_cons. by left. }
  destruct IH as [rows ->].
  { intros tk rep Hin. apply (Hrated tk). apply elem_of_cons. by right. }
  by eexists.
Qed.

(** The whole run. *)
Lemma analyze_multiple_stocks_run (tickers : list string) (t : string) :
  (Exists (is_unrated t) tickers ∧
   run tickers t = Raises (KeyError INSUFFICIENT)) ∨
  (Forall (λ ticker, ¬ is_unrated t ticker) tickers ∧
   ∃ results reps,
     run tickers t = Returns (results, reps) ∧
     is_filed t tickers results reps).
Proof.
  unfold analyze_multiple_stocks.
  destruct (for_each_filed t tickers [] _ _ (filed_start t))
    as [[Hex ->]|(Hall & results & reps & -> & Hfiled)].
  - by left.
  - right. split; [done|]. exists results, reps. split; [|done].
    cbn [and_then].
    destruct (collect_summary_row reps) as [rows ->]; [|done].
    intros ticker rep Hin Hempty.
    destruct Hfiled as (_ & Hreps & Hnodup & _).
    pose proof (odict_get_elem_of _ _ _ Hnodup Hin) as Hget.
    rewrite Hreps in Hget. simpl in Hget.
    case_decide as Hticker; [|done].
    rewrite Forall_forall in Hall. apply (Hall ticker Hticker).
    by exists (inr rep).
Qed.

(** X10.  [analyze_multiple_stocks] stops with the exception
    [KeyError('Insufficient data for classification')] exactly when the
    report of one of the tickers rates no ratio; it raises nothing else, no
    division by zero in the summary table either, and returns when every
    report rates something or is an error message. *)
Theorem analyze_multiple_stocks_raises (tickers : list string) (t : string) :
  (analyze_multiple_stocks fetch_stock_data explain now str_int format_1f
     tickers t = Raises (KeyError INSUFFICIENT)
   ↔ Exists (unrated_ticker fetch_stock_data explain now t) tickers) ∧
  (∀ err,
     analyze_multiple_stocks fetch_stock_data explain now str_int format_1f
       tickers t = Raises err →
     err = KeyError INSUFFICIENT) ∧
  (Forall (λ ticker, ¬ unrated_ticker fetch_stock_data explain now t ticker)
     tickers
   ↔ ∃ results all_reports,
       analyze_multiple_stocks fetch_stock_data explain now str_int format_1f
         tickers t = Returns (results, all_reports)).
Proof.
  destruct (analyze_multiple_stocks_run tickers t)
    as [[Hex Hrun]|(Hall & results & reps & Hrun & _)]; rewrite Hrun.
  - split; [done|]. split; [by intros err [= <-]|].
    split; [|by intros (? & ? & ?)].
    intros Hall. apply Exists_exists in Hex as (ticker & Hin & Hun).
    rewrite Forall_forall in Hall. by destruct (Hall ticker Hin).
  - split; [|split; [done|split; eauto]].
    split; [done|]. intros Hex.
    apply Exists_exists in Hex as (ticker & Hin & Hun).
    rewrite Forall_forall in Hall. by destruct (Hall ticker Hin).
Qed.

(** X11.  When [analyze_multiple_stocks] returns, [results] has the four
    categories of the analysis type and no other, and each category lists
    the tickers whose report has that classification (["ERROR"] for an
    error message), in the order of the input and as often as the input
    names them. *)
Theorem analyze_multiple_stocks_results (tickers : list string) (t : string)
    (results : gmap string (list string))
    (all_reports : odict report_or_error) :
  analyze_multiple_stocks fetch_stock_data explain now str_int format_1f
    tickers t = Returns (results, all_reports) →
  dom results = dom (result_categories t) ∧
  ∀ category, category ∈ dom (result_categories t) →
    results !! category
    = Some (filter (λ ticker,
                      category_of_ticker fetch_stock_data explain now t ticker
                      = category) tickers).
Proof.
  intros Hrun.
  destruct (analyze_multiple_stocks_run tickers t)
    as [[_ Hraise]|(_ & results' & reps' & Hrun' & Hres & _)];
    rewrite Hrun in *; [done|].
  injection Hrun' as <- <-. split.
  - apply set_eq. intros c. rewrite !elem_of_dom, Hres.
    by rewrite fmap_is_Some.
  - intros c [l Hl]%elem_of_dom. by rewrite Hres, Hl.
Qed.

(** X12.  When [analyze_multiple_stocks] returns, [all_reports] has one
    entry for each ticker of the input, in the order in which the tickers
    are first named, and the entry of a ticker is what [generate_report]
    gives for it. *)
Theorem analyze_multiple_stocks_reports (tickers : list string) (t : string)
    (results : gmap string (list string))
    (all_reports : odict report_or_error) :
  analyze_multiple_stocks fetch_stock_data explain now str_int format_1f
    tickers t = Returns (results, all_reports) →
  all_reports.*1 = first_seen tickers ∧
  NoDup all_reports.*1 ∧
  (∀ ticker, ticker ∈ all_reports.*1 ↔ ticker ∈ tickers) ∧
  ∀ ticker, ticker ∈ tickers →
    ∃ report,
      generate_report fetch_stock_data explain now ticker t = Ok report ∧
      odict_get ticker all_reports = Some report.
Proof.
  intros Hrun.
  destruct (analyze_multiple_stocks_run tickers t)
    as [[_ Hraise]|(_ & results' & reps' & Hrun' & _ & Hget & Hnodup & Hkeys)];
    rewrite Hrun in *; [done|].
  injection Hrun' as <- <-.
  assert (∀ ticker, ticker ∈ tickers →
            ∃ report,
              generate_report fetch_stock_data explain now ticker t = Ok report ∧
              odict_get ticker all_reports = Some report) as Hreports.
  { intros ticker Hin. rewrite Hget, decide_True by done.
    destruct (report_of_Some fetch_stock_data explain now t ticker)
      as (out & -> & Hgen). eauto. }
  split; [done|]. split; [done|]. split; [|done].
  intros ticker. split.
  - intros [[k out] [-> Hin]]%list_elem_of_fmap. simpl.
    pose proof (odict_get_elem_of _ _ _ Hnodup Hin) as Hout.
    rewrite Hget in Hout. by case_decide.
  - intros Hin. destruct (Hreports ticker Hin) as (out & _ & Hout).
    apply odict_get_Some_key in Hout.
    apply list_elem_of_fmap. by exists (ticker, out).
Qed.

End AnalyzeMultiple.

Lemma analyze_multiple_stocks_reports_witness :
  sample_reports.*1 = first_seen sample_tickers ∧
  NoDup sample_reports.*1 ∧
  (∀ ticker, ticker ∈ sample_reports.*1 ↔ ticker ∈ sample_tickers) ∧
  ∀ ticker, ticker ∈ sample_tickers →
    ∃ report,
      generate_report sample_fetch sample_explain sample_now ticker "value"
      = Ok report ∧
      odict_get ticker sample_reports = Some report.
Proof.
  apply (analyze_multiple_stocks_reports sample_fetch sample_explain sample_now
           sample_text sample_text sample_tickers "value" sample_results
           sample_reports).
  reflexivity.
Defined.

Lemma analyze_multiple_stocks_results_witness :
  dom sample_results = dom (result_categories "value") ∧
  ∀ category, category ∈ dom (result_categories "value") →
    sample_results !! category
    = Some (filter (λ ticker,
                      category_of_ticker sample_fetch sample_explain sample_now
                        "value" ticker = category) sample_tickers).
Proof.
  apply (analyze_multiple_stocks_results sample_fetch sample_explain sample_now
           sample_text sample_text sample_tickers "value" sample_results
           sample_reports).
  reflexivity.
Defined.

(** ** Explanations *)

Lemma described_criteria (items : list (string * ratio_info))
    (criteria : gmap string ratio_criteria) (name : string) (info : ratio_info) :
  described_has_great_range items criteria = true →
  (list_to_map items : gmap string ratio_info) !! name = Some info →
  ∃ rc range, criteria !! name = Some rc ∧ range_of rc great = Some range.
Proof.
  intros Hall Hname. apply elem_of_list_to_map_2 in Hname.
  unfold described_has_great_range in Hall. rewrite forallb_forall in Hall.
  apply list_elem_of_In in Hname. specialize (Hall _ Hname). simpl in Hall.
  destruct (criteria !! name) as [rc|]; [|done].
  apply bool_decide_eq_true_1 in Hall as [range Hrange]. eauto.
Qed.

Lemma value_described_criteria (name : string) (info : ratio_info) :
  VALUE_DESCRIPTIONS !! name = Some info →
  ∃ rc range, VALUE_CRITERIA !! name = Some rc ∧ range_of rc great = Some range.
Proof. apply described_criteria. by vm_compute. Qed.

Lemma growth_described_criteria (name : string) (info : ratio_info) :
  GROWTH_MOMENTUM_DESCRIPTIONS !! name = Some info →
  ∃ rc range,
    GROWTH_MOMENTUM_CRITERIA !! name = Some rc ∧ range_of rc great = Some range.
Proof. apply described_criteria. by vm_compute. Qed.

Lemma string_app_assoc (a b c : string) : (a ++ b) ++ c = a ++ b ++ c.
Proof.
  induction a as [|x a IH]; [done|].
  change (String x ((a ++ b) ++ c) = String x (a ++ b ++ c)). by rewrite IH.
Qed.

Section ExplanationProperties.

Variable format_2f : float → string.
Variable str_bound : float → string.

(** The explanation of a described ratio that has a value. *)
Lemma get_ratio_explanation_described (ratio_name : string) (v : float)
    (r : rating) (analysis_type : string) (info : ratio_info) :
  descriptions_of analysis_type !! ratio_name = Some info →
  ∃ rest,
    get_ratio_explanation format_2f str_bound ratio_name (Some v) r
      analysis_type
    = Returns (ri_name info ++ " (" ++ format_2f v ++ "): " ++ rest).
Proof.
  unfold get_ratio_explanation, descriptions_of.
  destruct (decide (analysis_type = "value")) as [->|Hne]; intros Hinfo;
    rewrite Hinfo.
  - destruct (value_described_criteria _ _ Hinfo) as (rc & range & Hrc & Hrange).
    unfold dict_item, great_range. rewrite Hrc. cbn [and_then].
    rewrite Hrange.
    destruct r; cbn [and_then]; rewrite !string_app_assoc; eexists;
      reflexivity.
  - destruct (growth_described_criteria _ _ Hinfo)
      as (rc & range & Hrc & Hrange).
    unfold great_range. rewrite Hrc, Hrange.
    destruct r; cbn [and_then]; rewrite !string_app_assoc; eexists;
      reflexivity.
Qed.

(** X13.  [get_ratio_explanation] raises no [KeyError], whatever the ratio
    name, the value, the rating and the analysis type: every described ratio
    has criteria with a [great] range.  It answers "Insufficient data
    available." when the ratio has no description for the analysis type or
    the value is [None], and otherwise a text that starts with the name of
    the ratio and its value; the answer "This metric is not applicable for
    growth/momentum analysis." is never given. *)
Theorem get_ratio_explanation_returns (ratio_name : string)
    (ratio_value : option float) (r : rating) (analysis_type : string) :
  ∃ text,
    get_ratio_explanation format_2f str_bound ratio_name ratio_value r
      analysis_type = Returns text ∧
    match descriptions_of analysis_type !! ratio_name, ratio_value with
    | Some info, Some v =>
        ∃ rest, text = ri_name info ++ " (" ++ format_2f v ++ "): " ++ rest
    | _, _ => text = "Insufficient data available."
    end.
Proof.
  destruct (descriptions_of analysis_type !! ratio_name) as [info|] eqn:Hinfo.
  - destruct ratio_value as [v|].
    + destruct (get_ratio_explanation_described ratio_name v r analysis_type
                  info Hinfo) as [rest ->]. eauto.
    + unfold get_ratio_explanation. fold (descriptions_of analysis_type).
      rewrite Hinfo. eauto.
  - unfold get_ratio_explanation. fold (descriptions_of analysis_type).
    rewrite Hinfo. eauto.
Qed.

(** A rated ratio has a description. *)
Lemma rated_is_described (t : string) (r : ratios_dict) (name : string)
    (rt : rating) :
  details_of (criteria_of t) r !! name = Some rt →
  ∃ v info, r !! name = Some (Some v) ∧ descriptions_of t !! name = Some info.
Proof.
  rewrite details_of_lookup.
  destruct (r !! name) as [[v|]|]; simpl; [|done..].
  destruct (criteria_of t !! name) as [rc|] eqn:Hrc; simpl; [|done].
  intros _. exists v.
  assert (is_Some (descriptions_of t !! name)) as [info Hinfo]; [|by eauto].
  unfold criteria_of, descriptions_of in *.
  destruct (decide (t = "value")).
  - assert (criteria_described VALUE_CRITERIA_items VALUE_DESCRIPTIONS = true)
      as Hall by (by vm_compute).
    unfold criteria_described in Hall. rewrite forallb_forall in Hall.
    apply elem_of_list_to_map_2, list_elem_of_In in Hrc.
    specialize (Hall _ Hrc). by apply bool_decide_eq_true_1 in Hall.
  - assert (criteria_described GROWTH_MOMENTUM_CRITERIA_items
              GROWTH_MOMENTUM_DESCRIPTIONS = true) as Hall by (by vm_compute).
    unfold criteria_described in Hall. rewrite forallb_forall in Hall.
    apply elem_of_list_to_map_2, list_elem_of_In in Hrc.
    specialize (Hall _ Hrc). by apply bool_decide_eq_true_1 in Hall.
Qed.

Variable fetch_stock_data : string → option StockData.
Variable now : string.

(** X14.  In a report of [generate_report], every explanation is the text
    that [get_ratio_explanation] returns for the ratio, its value and its
    rating, and it starts with the described name of the ratio and the
    value: no explanation in a report is "Insufficient data available.". *)
Theorem report_explanations_name_the_ratio (ticker t : string)
    (rep : StockReport) (name text : string) :
  generate_report fetch_stock_data (explanation_text format_2f str_bound) now
    ticker t = Ok (inr rep) →
  ratio_explanations rep !! name = Some text →
  ∃ v rt info rest,
    ratios rep !! name = Some (Some v) ∧
    rating_details rep !! name = Some rt ∧
    descriptions_of t !! name = Some info ∧
    get_ratio_explanation format_2f str_bound name (Some v) rt t
    = Returns text ∧
    text = ri_name info ++ " (" ++ format_2f v ++ "): " ++ rest.
Proof.
  unfold generate_report.
  destruct (fetch_stock_data ticker) as [sd|]; [|done].
  destruct (calculate_ratios (Some sd) t) as [r|] eqn:Hcalc; [|done].
  rewrite bool_decide_eq_false_2
    by (by apply (calculate_ratios_nonempty sd t)).
  rewrite classify_stock_Some. cbn [bind]. intros [= <-].
  cbn [ratio_explanations ratios rating_details].
  rewrite explanations_lookup.
  destruct (details_of (criteria_of t) r !! name) as [rt|] eqn:Hrt; [|done].
  destruct (rated_is_described t r name rt Hrt) as (v & info & Hv & Hinfo).
  rewrite Hv. simpl. intros [= <-]. exists v, rt, info.
  destruct (get_ratio_explanation_described name v rt t info Hinfo)
    as [rest Htext].
  exists rest. unfold explanation_text. rewrite Htext. done.
Qed.

End ExplanationProperties.

Lemma report_explanations_name_the_ratio_witness :
  ∃ v rt info rest,
    ratios sample_explained_report !! "pe_ratio" = Some (Some v) ∧
    rating_details sample_explained_report !! "pe_ratio" = Some rt ∧
    descriptions_of "value" !! "pe_ratio" = Some info ∧
    get_ratio_explanation sample_text sample_text "pe_ratio" (Some v) rt "value"
    = Returns
        "Price-to-Earnings Ratio (-): GOOD. Lower is better for value stocks. While not in the ideal range (---), it's still acceptable for value investing." ∧
    "Price-to-Earnings Ratio (-): GOOD. Lower is better for value stocks. While not in the ideal range (---), it's still acceptable for value investing."
    = ri_name info ++ " (" ++ sample_text v ++ "): " ++ rest.
Proof.
  apply (report_explanations_name_the_ratio sample_text sample_text
           sample_fetch sample_now "ACME" "value" sample_explained_report
           "pe_ratio");
    vm_compute; reflexivity.
Defined.

(** ** Both perspectives *)


Section DualAnalysis.

Variable fetch_stock_data : string → option StockData.
Variable explain : string → float → rating → string → string.
Variable now : string.
Variable str_int : nat → string.
Variable format_1f : float → string.


(** X15.  [dual_analysis] stops with
    [KeyError('Insufficient data for classification')] exactly when the
    report of one of the tickers rates no ratio, under the value rules or
    under the growth rules; it raises nothing else. *)
Theorem dual_analysis_raises (tickers : list string) :
  (dual_analysis fetch_stock_data explain now str_int format_1f tickers
   = Raises (KeyError INSUFFICIENT)
   ↔ Exists (unrated_ticker fetch_stock_data explain now "value") tickers
     ∨ Exists (unrated_ticker fetch_stock_data explain now "growth_momentum")
         tickers) ∧
  (∀ err,
     dual_analysis fetch_stock_data explain now str_int format_1f tickers
     = Raises err →
     err = KeyError INSUFFICIENT).
Proof.
  unfold dual_analysis.
  destruct (analyze_multiple_stocks_run fetch_stock_data explain now str_int
              format_1f tickers "value")
    as [[Hex ->]|(Hall & vres & vreps & -> & _)]; cbn [and_then].
  { split; [|by intros err [= <-]]. split; [by left|done]. }
  destruct (analyze_multiple_stocks_run fetch_stock_data explain now str_int
              format_1f tickers "growth_momentum")
    as [[Hex ->]|(Hall' & gres & greps & -> & _)]; cbn [and_then].
  { split; [|by intros err [= <-]]. split; [by right|done]. }
  split; [|done]. split; [done|].
  intros [Hex|Hex]; apply Exists_exists in Hex as (ticker & Hin & Hun).
  - rewrite Forall_forall in Hall. by destruct (Hall ticker Hin).
  - rewrite Forall_forall in Hall'. by destruct (Hall' ticker Hin).
Qed.


End DualAnalysis.


(** ** Side by side *)

Lemma valid_reports_types (all_reports : odict report_or_error) (t : string)
    (ticker : string) (rep : StockReport) :
  (ticker, rep) ∈ valid_reports all_reports t ↔
  (ticker, inr rep) ∈ all_reports ∧ analysis_type rep = t.
Proof.
  unfold valid_reports. rewrite list_elem_of_omap. split.
  - intros ([k [msg|rep']] & Hin & Hsome); simpl in Hsome; [done|].
    destruct rep'. simpl in *. case_decide; [|done].
    injection Hsome as -> <-. done.
  - intros [Hin Ht]. exists (ticker, inr rep). split; [done|].
    destruct rep. simpl in *. by rewrite decide_True.
Qed.

Section Comparison.

Variable format_2f : float → string.
Variable tabulate : list (list string) → list string → string.
Variable title : string → string.

(** The metrics of the table all have a description. *)
Lemma metric_name_described (t metric : string) :
  metric ∈ (if decide (t = "value") then VALUE_CRITERIA_items.*1
            else GROWTH_MOMENTUM_CRITERIA_items.*1) →
  ∃ info, descriptions_of t !! metric = Some info ∧
          metric_name title t metric = ri_name info.
Proof.
  unfold metric_name, descriptions_of.
  destruct (decide (t = "value")).
  - intros [[k rc] [-> Hin]]%list_elem_of_fmap. simpl.
    apply list_elem_of_In in Hin.
    assert (criteria_described VALUE_CRITERIA_items VALUE_DESCRIPTIONS = true)
      as Hall by (by vm_compute).
    unfold criteria_described in Hall. rewrite forallb_forall in Hall.
    specialize (Hall _ Hin). apply bool_decide_eq_true_1 in Hall as [info Hi].
    simpl in Hi. rewrite Hi. eauto.
  - intros [[k rc] [-> Hin]]%list_elem_of_fmap. simpl.
    apply list_elem_of_In in Hin.
    assert (criteria_described GROWTH_MOMENTUM_CRITERIA_items
              GROWTH_MOMENTUM_DESCRIPTIONS = true) as Hall by (by vm_compute).
    unfold criteria_described in Hall. rewrite forallb_forall in Hall.
    specialize (Hall _ Hin). apply bool_decide_eq_true_1 in Hall as [info Hi].
    simpl in Hi. rewrite Hi. eauto.
Qed.

(** X17.  The table of [generate_detailed_comparison] is well formed: the
    header has one column for the metric and one for each compared report,
    there is one row for each ratio of the criteria table and one for the
    classification, and every row is as long as the header.  Every metric
    has a described name, so that the name made from the key of the ratio
    is never used. *)
Theorem comparison_table_shape (all_reports : odict report_or_error)
    (t : string) :
  let valid := valid_reports all_reports t in
  let data := comparison_data format_2f title valid t in
  length (comparison_header valid) = S (length valid) ∧
  length data = S (size (criteria_of t)) ∧
  Forall (λ row, length row = S (length valid)) data ∧
  ∀ title', comparison_data format_2f title' valid t = data.
Proof.
  intros valid data. unfold data, comparison_data, comparison_header.
  generalize valid. clear valid data. intros valid.
  split; [|split; [|split]].
  - simpl. by rewrite length_map.
  - rewrite length_app, length_map, Nat.add_1_r. f_equal.
    unfold criteria_of. destruct (decide (t = "value")); by vm_compute.
  - apply Forall_app. split.
    + apply Forall_forall. intros row [metric [-> _]]%list_elem_of_fmap.
      simpl. by rewrite length_map.
    + apply Forall_singleton. simpl. by rewrite length_map.
  - intros title'. f_equal. apply map_ext_in. intros metric Hin.
    apply list_elem_of_In in Hin.
    destruct (metric_name_described t metric Hin) as (info & Hinfo & ->).
    f_equal. unfold metric_name. fold (descriptions_of t). by rewrite Hinfo.
Qed.

(** Nothing is compared when no report is of the analysis type. *)
Lemma comparison_without_reports (all_reports : odict report_or_error)
    (t : string) :
  (∀ ticker rep, (ticker, inr rep) ∈ all_reports → analysis_type rep ≠ t) →
  generate_detailed_comparison format_2f tabulate title all_reports t
  = "No valid reports for " ++ t ++ " analysis to compare.".
Proof.
  intros Hnone. unfold generate_detailed_comparison.
  destruct (valid_reports all_reports t) as [|[ticker rep] valid] eqn:Hvalid;
    [done|].
  assert ((ticker, rep) ∈ valid_reports all_reports t) as Hin.
  { rewrite Hvalid. apply elem_of_cons. by left. }
  apply valid_reports_types in Hin as [Hin Ht]. by destruct (Hnone ticker rep).
Qed.

(** The compared tickers are the keys whose entry is a report of the
    type. *)
Lemma valid_reports_keys (all_reports : odict report_or_error) (t : string)
    (P : string → Prop) `{!∀ k, Decision (P k)} :
  (∀ k out, (k, out) ∈ all_reports →
            P k ↔ ∃ rep, out = inr rep ∧ analysis_type rep = t) →
  (valid_reports all_reports t).*1 = filter P all_reports.*1.
Proof.
  induction all_reports as [|[k out] l IH]; intros HP; [done|].
  unfold valid_reports in *. csimpl. rewrite filter_cons.
  assert (∀ k0 out0, (k0, out0) ∈ l →
            P k0 ↔ ∃ rep, out0 = inr rep ∧ analysis_type rep = t) as HP'.
  { intros k0 out0 Hin. apply HP. apply elem_of_cons. by right. }
  specialize (IH HP').
  assert ((k, out) ∈ (k, out) :: l) as Hhere by (apply elem_of_cons; by left).
  specialize (HP k out Hhere).
  destruct out as [msg|rep]; simpl.
  - rewrite decide_False; [exact IH|].
    intros Hk. apply HP in Hk as (rep & Hrep & _). discriminate.
  - destruct rep as [? ? ? ? ? ? ? ? ? rt]. simpl in *.
    destruct (decide (rt = t)) as [->|Hne].
    + rewrite decide_True by (apply HP; eauto). csimpl. by rewrite IH.
    + rewrite decide_False; [exact IH|].
      intros Hk. apply HP in Hk as (rep & [= <-] & Hrt). done.
Qed.

Variable fetch_stock_data : string → option StockData.
Variable explain : string → float → rating → string → string.
Variable now : string.
Variable str_int : nat → string.
Variable format_1f : float → string.

(** X18.  The reports of a run of [analyze_multiple_stocks] are compared
    under the analysis type of the run only: under another type
    [generate_detailed_comparison] answers that there is nothing to
    compare.  Under the type of the run the compared reports are those of
    the tickers whose ratios could be calculated, in the order in which the
    tickers are first named. *)
Theorem comparison_of_a_run (tickers : list string) (t t' : string)
    (results : gmap string (list string))
    (all_reports : odict report_or_error) :
  analyze_multiple_stocks fetch_stock_data explain now str_int format_1f
    tickers t = Returns (results, all_reports) →
  (t' ≠ t →
   generate_detailed_comparison format_2f tabulate title all_reports t'
   = "No valid reports for " ++ t' ++ " analysis to compare.") ∧
  (valid_reports all_reports t).*1
  = filter (λ ticker, is_Some (calculate_ratios (fetch_stock_data ticker) t))
      (first_seen tickers).
Proof.
  intros Hrun.
  destruct (analyze_multiple_stocks_run fetch_stock_data explain now str_int
              format_1f tickers t)
    as [[_ Hraise]|(_ & results' & reps' & Hrun' & _ & Hget & Hnodup & Hkeys)];
    rewrite Hrun in *; [done|].
  injection Hrun' as <- <-.
  assert (∀ k out, (k, out) ∈ all_reports →
            generate_report fetch_stock_data explain now k t = Ok out)
    as Hentry.
  { intros k out Hin.
    pose proof (odict_get_elem_of _ _ _ Hnodup Hin) as Hout.
    rewrite Hget in Hout. case_decide; [|done].
    destruct (report_of_Some fetch_stock_data explain now t k)
      as (out' & Hrep & Hgen).
    rewrite Hrep in Hout. by injection Hout as ->. }
  assert (∀ k out, (k, out) ∈ all_reports →
            match out with
            | inl _ => calculate_ratios (fetch_stock_data k) t = None
            | inr rep => is_Some (calculate_ratios (fetch_stock_data k) t) ∧
                         analysis_type rep = t
            end) as Hkind.
  { intros k out Hin. apply Hentry in Hin.
    destruct (generate_report_Ok fetch_stock_data explain now k t)
      as (out' & Hgen & Hout).
    rewrite Hin in Hgen. injection Hgen as <-.
    destruct out as [msg|rep]; [done|].
    destruct Hout as (r & -> & Ht & _). eauto. }
  split.
  - intros Hne. apply comparison_without_reports.
    intros ticker rep Hin Ht. apply Hkind in Hin as [_ Ht']. congruence.
  - rewrite <- Hkeys. apply valid_reports_keys.
    intros k out Hin. specialize (Hkind k out Hin).
    destruct out as [msg|rep].
    + rewrite Hkind. split; [by intros [? ?]|by intros (? & ? & ?)].
    + destruct Hkind as [Hsome Ht]. split; [eauto|done].
Qed.

End Comparison.

Lemma comparison_of_a_run_witness :
  ("growth_momentum" ≠ "value" →
   generate_detailed_comparison sample_text sample_tabulate sample_text
     sample_reports "growth_momentum"
   = "No valid reports for " ++ "growth_momentum" ++ " analysis to compare.") ∧
  (valid_reports sample_reports "value").*1
  = filter (λ ticker, is_Some (calculate_ratios (sample_fetch ticker) "value"))
      (first_seen sample_tickers).
Proof.
  apply (comparison_of_a_run sample_text sample_tabulate sample_text
           sample_fetch sample_explain sample_now sample_text sample_text
           sample_tickers "value" "growth_momentum" sample_results
           sample_reports).
  reflexivity.
Defined.

Section ComparisonCells.

Variable format_2f : float → string.
Variable fetch_stock_data : string → option StockData.
Variable explain : string → float → rating → string → string.
Variable now : string.

(** X19.  In the comparison, the cell of a ratio of the criteria table is
    made from the value of the ratio and from the range that holds it: "N/A"
    without a value, the value marked Great or Good when the [great] or the
    [good] range is the first to hold it, and the value marked "(Poor)"
    otherwise, also when no range holds the value and the ratio is not
    rated at all. *)
Theorem comparison_cell_of_report (ticker t : string) (rep : StockReport)
    (metric : string) (rc : ratio_criteria) :
  generate_report fetch_stock_data explain now ticker t = Ok (inr rep) →
  criteria_of t !! metric = Some rc →
  comparison_cell format_2f metric rep
  = match mjoin (ratios rep !! metric) with
    | None => "N/A"
    | Some v =>
        match rate_ratio rc v with
        | Some great => "**" ++ format_2f v ++ "** (Great)"
        | Some good => "*" ++ format_2f v ++ "* (Good)"
        | Some no_buy | None => format_2f v ++ " (Poor)"
        end
    end.
Proof.
  intros Hgen Hrc.
  destruct (generate_report_Ok fetch_stock_data explain now ticker t)
    as (out & Hout & Hrep).
  rewrite Hgen in Hout. injection Hout as <-.
  destruct Hrep as (r & _ & _ & Hr & Hdetails & _).
  unfold comparison_cell. rewrite Hdetails, details_of_lookup, Hr.
  destruct (r !! metric) as [[v|]|]; simpl; [|done..].
  unfold rating_of. simpl. rewrite Hrc. simpl.
  by destruct (rate_ratio rc v) as [[]|].
Qed.

End ComparisonCells.

Lemma comparison_cell_of_report_witness :
  comparison_cell sample_text "pe_ratio" sample_explained_report
  = match mjoin (ratios sample_explained_report !! "pe_ratio") with
    | None => "N/A"
    | Some v =>
        match rate_ratio
                [(great, (0, 15)); (good, (15, 25)); (no_buy, (25, inf))]%float
                v with
        | Some great => "**" ++ sample_text v ++ "** (Great)"
        | Some good => "*" ++ sample_text v ++ "* (Good)"
        | Some no_buy | None => sample_text v ++ " (Poor)"
        end
    end.
Proof.
  apply (comparison_cell_of_report sample_text sample_fetch
           (explanation_text sample_text sample_text) sample_now
           "ACME" "value" sample_explained_report "pe_ratio");
    vm_compute; reflexivity.
Defined.
